(** * spotify-web-api: the request dispatcher of [src/index.js]

    A shallow embedding of the class [SpotifyWebApi]: JavaScript values,
    the few language operations the class relies on ([||], default
    parameters, template literals, [Array.prototype.join],
    [Array.prototype.filter(Boolean)], [Object.entries], property reads
    and writes), a small state-and-exception monad for the [async]
    methods, the dispatcher [performRequest], and the endpoint methods
    themselves.  The HTTP transport ([axios]) and [querystring.escape]
    are libraries outside the repository and are taken as parameters. *)

From Stdlib Require Import ZArith List String Ascii DecimalString Bool Lia.
Import ListNotations.
Open Scope string_scope.

Set Warnings "-register-all".

(** ** JavaScript values *)

(** The values a caller can write as data.  [JNum n] is the number [n] for
    an integer [n] (the JSDoc of the class types every numeric parameter as
    [Integer]; [-0] is not told apart from [0]), and [JNaN] is [NaN], the
    other falsy number; fractions and infinities are left out.  A string
    is a sequence of ASCII characters.  An object is a plain object: the
    list of its own enumerable properties in enumeration order, each key
    occurring once; functions, symbols and accessors are left out. *)
Inductive JsValue : Type :=
| JUndefined
| JNull
| JBool (b : bool)
| JNum (n : Z)
| JStr (s : string)
| JArr (elems : list JsValue)
| JObj (props : list (string * JsValue))
| JNaN.

(** What a [throw] carries: a JavaScript value, or the [TypeError] the
    engine raises when a property of [undefined] or [null] is read. *)
Inductive Exn : Type :=
| Thrown (v : JsValue)
| TypeError.

Inductive Completion (A : Type) : Type :=
| Normal (a : A)
| Abrupt (e : Exn).
Arguments Normal {A} a.
Arguments Abrupt {A} e.

Module Js.

(** [Boolean(v)]: the falsy values of the model are [undefined], [null],
    [false], [0], [NaN] and the empty string; arrays and objects are
    truthy. *)
Definition Boolean (v : JsValue) : bool :=
  match v with
  | JUndefined | JNull | JNaN => false
  | JBool b => b
  | JNum n => negb (Z.eqb n 0)
  | JStr s => negb (String.eqb s "")
  | JArr _ | JObj _ => true
  end.

(** [a || b] *)
Definition or (a b : JsValue) : JsValue :=
  if Boolean a then a else b.

(** A parameter default [x = d] applies only when the argument is
    [undefined]. *)
Definition default (x d : JsValue) : JsValue :=
  match x with
  | JUndefined => d
  | _ => x
  end.

(** [String(v)], as used by template literals, by string [+] and by
    [join] on the elements of an array.  It is what JavaScript gives on
    the [printable] values below: an integer is printed in decimal, which
    is so up to 2^53, and an object as [[object Object]], which is so
    unless it has a [toString] member of its own. *)
Fixpoint ToString (v : JsValue) : string :=
  match v with
  | JUndefined => "undefined"
  | JNull => "null"
  | JNaN => "NaN"
  | JBool true => "true"
  | JBool false => "false"
  | JNum n => NilZero.string_of_int (Z.to_int n)
  | JStr s => s
  | JArr elems =>
      String.concat ","
        (map (fun e => match e with
                       | JUndefined | JNull => ""
                       | _ => ToString e
                       end) elems)
  | JObj _ => "[object Object]"
  end.

(** The string [join] puts in the result for one element. *)
Definition join_elem (e : JsValue) : string :=
  match e with
  | JUndefined | JNull => ""
  | _ => ToString e
  end.

(** [elems.join(sep)] *)
Definition join (elems : list JsValue) (sep : string) : string :=
  String.concat sep (map join_elem elems).

(** [elems.filter(Boolean)] *)
Definition filter_Boolean (elems : list JsValue) : list JsValue :=
  filter Boolean elems.

(** Own property lookup in an object's property list. *)
Fixpoint lookup (props : list (string * JsValue)) (k : string)
  : option JsValue :=
  match props with
  | [] => None
  | (k', v) :: rest => if String.eqb k' k then Some v else lookup rest k
  end.

(** [obj.k] on an object: a missing property reads as [undefined]. *)
Definition get (props : list (string * JsValue)) (k : string) : JsValue :=
  match lookup props k with
  | Some v => v
  | None => JUndefined
  end.

(** [obj[k] = v]: an existing property keeps its place, a new one is
    added last. *)
Fixpoint set (props : list (string * JsValue)) (k : string) (v : JsValue)
  : list (string * JsValue) :=
  match props with
  | [] => [(k, v)]
  | (k', v') :: rest =>
      if String.eqb k' k then (k', v) :: rest else (k', v') :: set rest k v
  end.

(** [v.k] for the property names the class reads ([url], [method],
    [params], [data], [response], [error]): none of them is a built-in
    property of arrays, strings, numbers or booleans, so on those the
    read gives [undefined]; on [undefined] and [null] it raises. *)
Definition member (v : JsValue) (k : string) : Completion JsValue :=
  match v with
  | JUndefined | JNull => Abrupt TypeError
  | JObj props => Normal (get props k)
  | JBool _ | JNum _ | JNaN | JStr _ | JArr _ => Normal JUndefined
  end.

(** The same read on a caught exception; a [TypeError] object has no
    [response] property. *)
Definition member_exn (e : Exn) (k : string) : Completion JsValue :=
  match e with
  | Thrown v => member v k
  | TypeError => Normal JUndefined
  end.

Definition index_key (i : nat) : string :=
  NilZero.string_of_uint (Nat.to_uint i).

Fixpoint indexed {A : Type} (i : nat) (l : list A) : list (string * A) :=
  match l with
  | [] => []
  | x :: rest => (index_key i, x) :: indexed (S i) rest
  end.

(** The characters of a string, one by one (the strings of the model are
    ASCII, so a character is a code unit). *)
Fixpoint chars (s : string) : list JsValue :=
  match s with
  | EmptyString => []
  | String c rest => JStr (String c EmptyString) :: chars rest
  end.

(** [Object.entries(v)]: raises on [undefined] and [null]; the own
    enumerable properties of an object; the indexed elements of an array
    or a string; nothing for a number or a boolean. *)
Definition Object_entries (v : JsValue)
  : Completion (list (string * JsValue)) :=
  match v with
  | JUndefined | JNull => Abrupt TypeError
  | JObj props => Normal props
  | JArr elems => Normal (indexed 0 elems)
  | JStr s => Normal (indexed 0 (chars s))
  | JBool _ | JNum _ | JNaN => Normal []
  end.

End Js.

(** ** The client object and the world around it *)

Record SpotifyWebApi : Type := { access_token : JsValue }.

(** [this], what [console.log] has printed, and the requests handed to the
    transport, oldest first. *)
Record World : Type := {
  this : SpotifyWebApi;
  console : list string;
  network : list JsValue
}.

(** An [async] method: it runs in a world and completes normally (the
    promise resolves) or abruptly (it rejects). *)
Definition M (A : Type) : Type := World -> Completion A * World.

Definition ret {A : Type} (a : A) : M A := fun w => (Normal a, w).

Definition throw {A : Type} (e : Exn) : M A := fun w => (Abrupt e, w).

Definition bind {A B : Type} (m : M A) (k : A -> M B) : M B :=
  fun w =>
    match m w with
    | (Normal a, w') => k a w'
    | (Abrupt e, w') => (Abrupt e, w')
    end.

Definition lift {A : Type} (c : Completion A) : M A := fun w => (c, w).

Definition try_catch {A : Type} (body : M A) (handler : Exn -> M A) : M A :=
  fun w =>
    match body w with
    | (Normal a, w') => (Normal a, w')
    | (Abrupt e, w') => handler e w'
    end.

Definition read_access_token : M JsValue :=
  fun w => (Normal (access_token (this w)), w).

Notation "x <- m ;; k" := (bind m (fun x => k))
  (at level 61, m at next level, right associativity).

(** [constructor(access_token)]: the new object and the lines logged. *)
Definition constructor (token : JsValue) : SpotifyWebApi * list string :=
  let this := {| access_token := Js.or token JNull |} in
  (this,
   if negb (Js.Boolean (access_token this))
   then ["Please provide a access token!"] else []).

(** [new SpotifyWebApi(token)] in a fresh world. *)
Definition new_SpotifyWebApi (token : JsValue) : World :=
  let '(this, lines) := constructor token in
  {| this := this; console := lines; network := [] |}.

(** The pattern [[x].filter(Boolean).join(",")]. *)
Definition filter_join (x : JsValue) : JsValue :=
  JStr (Js.join (Js.filter_Boolean [x]) ",").

(** The loops [for (const [key, value] of entries) params[prefix + key] =
    value] of [getRecommendations]. *)
Definition assign_entries (prefix : string)
    (params entries : list (string * JsValue)) : list (string * JsValue) :=
  fold_left (fun p kv => Js.set p (prefix ++ fst kv) (snd kv)) entries params.

Section Client.

(** The transport: what [await axios(config)] gives for a request
    configuration, a response or a rejection. *)
Variable axios : JsValue -> Completion JsValue.

(** Node's [querystring.escape]. *)
Variable qs_escape : JsValue -> Completion JsValue.

Definition await_axios (config : JsValue) : M JsValue :=
  fun w =>
    (axios config,
     {| this := this w; console := console w;
        network := network w ++ [config] |}).

Definition performRequest (options : JsValue) : M JsValue :=
  try_catch
    (token <- read_access_token ;;
     url <- lift (Js.member options "url") ;;
     method <- lift (Js.member options "method") ;;
     params <- lift (Js.member options "params") ;;
     data <- lift (Js.member options "data") ;;
     data <- await_axios
               (JObj [ ("baseURL", JStr "https://api.spotify.com/v1");
                       ("headers",
                        JObj [("Authorization",
                               JStr ("Bearer " ++ Js.ToString token))]);
                       ("reponseType", JStr "json");
                       ("url", url);
                       ("method", Js.or method (JStr "GET"));
                       ("params", Js.or params JNull);
                       ("data", Js.or data JNull) ]) ;;
     ret data)
    (fun e =>
       response <- lift (Js.member_exn e "response") ;;
       data <- lift (Js.member response "data") ;;
       error <- lift (Js.member data "error") ;;
       throw (Thrown error)).

(** *** Browse API *)

Definition getCategories (country locale limit offset : JsValue)
  : M JsValue :=
  let limit := Js.default limit (JNum 20) in
  let offset := Js.default offset (JNum 0) in
  performRequest
    (JObj [ ("url", JStr "/browse/categories");
            ("params", JObj [ ("country", country); ("locale", locale);
                              ("limit", limit); ("offset", offset) ]) ]).

Definition getCategory (category_id country locale : JsValue) : M JsValue :=
  performRequest
    (JObj [ ("url", JStr ("/browse/categories/" ++ Js.ToString category_id));
            ("params", JObj [ ("country", country); ("locale", locale) ]) ]).

Definition getCategoryPlaylist (category_id country limit offset : JsValue)
  : M JsValue :=
  let limit := Js.default limit (JNum 20) in
  let offset := Js.default offset (JNum 0) in
  performRequest
    (JObj [ ("url", JStr ("/browse/categories/" ++ Js.ToString category_id
                          ++ "/playlists"));
            ("params", JObj [ ("country", country); ("limit", limit);
                              ("offset", offset) ]) ]).

Definition getRecommendations
    (seed_artists seed_genres seed_tracks limit market min_ max_ target_
     : JsValue) : M JsValue :=
  let seed_artists := Js.default seed_artists (JArr []) in
  let seed_genres := Js.default seed_genres (JArr []) in
  let seed_tracks := Js.default seed_tracks (JArr []) in
  let limit := Js.default limit (JNum 20) in
  let min_ := Js.default min_ (JObj []) in
  let max_ := Js.default max_ (JObj []) in
  let target_ := Js.default target_ (JObj []) in
  let params := [ ("seed_artists", filter_join seed_artists);
                  ("seed_genres", filter_join seed_genres);
                  ("seed_tracks", filter_join seed_tracks);
                  ("limit", limit); ("market", market) ] in
  entries <- lift (Js.Object_entries min_) ;;
  let params := assign_entries "min_" params entries in
  entries <- lift (Js.Object_entries max_) ;;
  let params := assign_entries "max_" params entries in
  entries <- lift (Js.Object_entries target_) ;;
  let params := assign_entries "target_" params entries in
  performRequest
    (JObj [ ("url", JStr "/recommendations"); ("params", JObj params) ]).

Definition getRecommendationGenres : M JsValue :=
  performRequest
    (JObj [ ("url", JStr "/recommendations/available-genre-seeds") ]).

Definition getNewReleases (country limit offset : JsValue) : M JsValue :=
  let limit := Js.default limit (JNum 20) in
  let offset := Js.default offset (JNum 0) in
  performRequest
    (JObj [ ("url", JStr "/browse/new-releases");
            ("params", JObj [ ("country", country); ("limit", limit);
                              ("offset", offset) ]) ]).

Definition getFeaturedPlaylists
    (country locale timestamp limit offset : JsValue) : M JsValue :=
  let limit := Js.default limit (JNum 20) in
  let offset := Js.default offset (JNum 0) in
  performRequest
    (JObj [ ("url", JStr "/browse/featured-playlists");
            ("params", JObj [ ("country", country); ("locale", locale);
                              ("timestamp", timestamp); ("limit", limit);
                              ("offset", offset) ]) ]).

(** *** Artists API *)

Definition getArtists (ids : JsValue) : M JsValue :=
  let ids := Js.default ids (JArr []) in
  performRequest
    (JObj [ ("url", JStr "/artists");
            ("params", JObj [ ("ids", filter_join ids) ]) ]).

Definition getArtist (id : JsValue) : M JsValue :=
  performRequest (JObj [ ("url", JStr ("/artists/" ++ Js.ToString id)) ]).

Definition getArtistsAlbums (id include_groups market limit offset : JsValue)
  : M JsValue :=
  let include_groups :=
    Js.default include_groups (JArr [JStr "single"; JStr "appears_on"]) in
  let limit := Js.default limit (JNum 20) in
  let offset := Js.default offset (JNum 0) in
  performRequest
    (JObj [ ("url", JStr ("/artists/" ++ Js.ToString id ++ "/albums"));
            ("params", JObj [ ("include_groups", filter_join include_groups);
                              ("market", market); ("limit", limit);
                              ("offset", offset) ]) ]).

Definition getArtistsTopTracks (id market : JsValue) : M JsValue :=
  performRequest
    (JObj [ ("url", JStr ("/artists/" ++ Js.ToString id ++ "/top-tracks"));
            ("params", JObj [ ("market", market) ]) ]).

Definition getRelatedArtists (id : JsValue) : M JsValue :=
  performRequest
    (JObj [ ("url",
             JStr ("/artists/" ++ Js.ToString id ++ "/related-artists")) ]).

(** *** Player API *)

Definition getCurrentPlaying (market : JsValue) : M JsValue :=
  performRequest
    (JObj [ ("url", JStr "/me/player/currently-playing");
            ("params", JObj [ ("market", market) ]) ]).

Definition setVolume (volume_percent device_id : JsValue) : M JsValue :=
  let volume_percent := Js.default volume_percent (JNum 50) in
  performRequest
    (JObj [ ("url", JStr "/me/player/volume");
            ("method", JStr "PUT");
            ("params", JObj [ ("volume_percent", volume_percent);
                              ("device_id", device_id) ]) ]).

Definition getPlaybackInfo (market : JsValue) : M JsValue :=
  performRequest
    (JObj [ ("url", JStr "/me/player");
            ("params", JObj [ ("market", market) ]) ]).

Definition skipPrevious (device_id : JsValue) : M JsValue :=
  performRequest
    (JObj [ ("url", JStr "/me/player/previous");
            ("method", JStr "POST");
            ("params", JObj [ ("device_id", device_id) ]) ]).

Definition getRecentlyPlayed (limit after before : JsValue) : M JsValue :=
  let limit := Js.default limit (JNum 20) in
  performRequest
    (JObj [ ("url", JStr "/me/player/recently-played");
            ("params", JObj [ ("limit", limit); ("after", after);
                              ("before", before) ]) ]).

Definition skipNext (device_id : JsValue) : M JsValue :=
  performRequest
    (JObj [ ("url", JStr "/me/player/next");
            ("method", JStr "POST");
            ("params", JObj [ ("device_id", device_id) ]) ]).

Definition pausePlayback (device_id : JsValue) : M JsValue :=
  performRequest
    (JObj [ ("url", JStr "/me/player/pause");
            ("method", JStr "PUT");
            ("params", JObj [ ("device_id", device_id) ]) ]).

Definition setRepeatMode (state device_id : JsValue) : M JsValue :=
  let state := Js.default state (JStr "track") in
  performRequest
    (JObj [ ("url", JStr "/me/player/repeat");
            ("method", JStr "PUT");
            ("params", JObj [ ("state", state);
                              ("device_id", device_id) ]) ]).

Definition startPlayback
    (device_id context_uri uris offset position_ms : JsValue) : M JsValue :=
  let uris := Js.default uris (JArr []) in
  performRequest
    (JObj [ ("url", JStr "/me/player/play");
            ("method", JStr "PUT");
            ("params", JObj [ ("device_id", device_id) ]);
            ("data", JObj [ ("context_uri", context_uri); ("uris", uris);
                            ("offset", offset);
                            ("position_ms", position_ms) ]) ]).

Definition seekTo (position_ms device_id : JsValue) : M JsValue :=
  let position_ms := Js.default position_ms (JNum 0) in
  performRequest
    (JObj [ ("url", JStr "/me/player/seek");
            ("method", JStr "PUT");
            ("params", JObj [ ("position_ms", position_ms);
                              ("device_id", device_id) ]) ]).

Definition transferPlayback (device_ids play : JsValue) : M JsValue :=
  performRequest
    (JObj [ ("url", JStr "/me/player");
            ("method", JStr "PUT");
            ("data", JObj [ ("device_ids", device_ids); ("play", play) ]) ]).

Definition toggleShuffle (state device_id : JsValue) : M JsValue :=
  performRequest
    (JObj [ ("url", JStr "/me/player/shuffle");
            ("method", JStr "PUT");
            ("params", JObj [ ("state", state);
                              ("device_id", device_id) ]) ]).

Definition getAvailableDevices : M JsValue :=
  performRequest (JObj [ ("url", JStr "/me/player/devices") ]).

(** *** User Profile *)

Definition getUserProfile (user_id : JsValue) : M JsValue :=
  performRequest (JObj [ ("url", JStr ("/users/" ++ Js.ToString user_id)) ]).

Definition getCurrentUser : M JsValue :=
  performRequest (JObj [ ("url", JStr "/me") ]).

(** *** Follow API *)

Definition getFollowingState (type ids : JsValue) : M JsValue :=
  let ids := Js.default ids (JArr []) in
  performRequest
    (JObj [ ("url", JStr "/me/following/contains");
            ("params", JObj [ ("type", type);
                              ("ids", filter_join ids) ]) ]).

Definition checkIfUsersFollowPlaylist (playlist_id ids : JsValue)
  : M JsValue :=
  let ids := Js.default ids (JArr []) in
  performRequest
    (JObj [ ("url", JStr ("/playlists/" ++ Js.ToString playlist_id
                          ++ "/followers/contains"));
            ("params", JObj [ ("ids", filter_join ids) ]) ]).

Definition followUsersOrArtists (type ids : JsValue) : M JsValue :=
  let ids := Js.default ids (JArr []) in
  performRequest
    (JObj [ ("url", JStr "/me/following");
            ("method", JStr "PUT");
            ("params", JObj [ ("type", type); ("ids", filter_join ids) ]);
            ("data", JObj [ ("ids", ids) ]) ]).

Definition followPlaylist (playlist_id visible : JsValue) : M JsValue :=
  let visible := Js.default visible (JBool true) in
  performRequest
    (JObj [ ("url", JStr ("/playlists/" ++ Js.ToString playlist_id
                          ++ "/followers"));
            ("method", JStr "PUT");
            ("data", JObj [ ("visible", visible) ]) ]).

Definition getFollowedArtists (type limit after : JsValue) : M JsValue :=
  let type := Js.default type (JStr "artist") in
  let limit := Js.default limit (JNum 20) in
  performRequest
    (JObj [ ("url", JStr "/me/following");
            ("params", JObj [ ("type", type); ("limit", limit);
                              ("after", after) ]) ]).

Definition unfollowArtistsOrUsers (type ids : JsValue) : M JsValue :=
  let ids := Js.default ids (JArr []) in
  performRequest
    (JObj [ ("url", JStr "/me/following");
            ("method", JStr "DELETE");
            ("params", JObj [ ("type", type); ("ids", filter_join ids) ]);
            ("data", JObj [ ("ids", ids) ]) ]).

Definition unfollowPlaylist (playlist_id : JsValue) : M JsValue :=
  performRequest
    (JObj [ ("url", JStr ("/playlists/" ++ Js.ToString playlist_id
                          ++ "/followers")) ]).

(** *** Search API *)

Definition searchItem
    (q type market limit offset include_external : JsValue) : M JsValue :=
  let type := Js.default type (JArr [JStr "track"; JStr "artist"]) in
  let limit := Js.default limit (JNum 20) in
  let offset := Js.default offset (JNum 0) in
  q <- lift (qs_escape q) ;;
  performRequest
    (JObj [ ("url", JStr "/search");
            ("params", JObj [ ("q", q); ("type", filter_join type);
                              ("market", market); ("limit", limit);
                              ("offset", offset);
                              ("include_external", include_external) ]) ]).

(** ** Every endpoint method, as one type of calls *)

Inductive Call : Type :=
| GetCategories (country locale limit offset : JsValue)
| GetCategory (category_id country locale : JsValue)
| GetCategoryPlaylist (category_id country limit offset : JsValue)
| GetRecommendations
    (seed_artists seed_genres seed_tracks limit market min_ max_ target_
     : JsValue)
| GetRecommendationGenres
| GetNewReleases (country limit offset : JsValue)
| GetFeaturedPlaylists (country locale timestamp limit offset : JsValue)
| GetArtists (ids : JsValue)
| GetArtist (id : JsValue)
| GetArtistsAlbums (id include_groups market limit offset : JsValue)
| GetArtistsTopTracks (id market : JsValue)
| GetRelatedArtists (id : JsValue)
| GetCurrentPlaying (market : JsValue)
| SetVolume (volume_percent device_id : JsValue)
| GetPlaybackInfo (market : JsValue)
| SkipPrevious (device_id : JsValue)
| GetRecentlyPlayed (limit after before : JsValue)
| SkipNext (device_id : JsValue)
| PausePlayback (device_id : JsValue)
| SetRepeatMode (state device_id : JsValue)
| StartPlayback (device_id context_uri uris offset position_ms : JsValue)
| SeekTo (position_ms device_id : JsValue)
| TransferPlayback (device_ids play : JsValue)
| ToggleShuffle (state device_id : JsValue)
| GetAvailableDevices
| GetUserProfile (user_id : JsValue)
| GetCurrentUser
| GetFollowingState (type ids : JsValue)
| CheckIfUsersFollowPlaylist (playlist_id ids : JsValue)
| FollowUsersOrArtists (type ids : JsValue)
| FollowPlaylist (playlist_id visible : JsValue)
| GetFollowedArtists (type limit after : JsValue)
| UnfollowArtistsOrUsers (type ids : JsValue)
| UnfollowPlaylist (playlist_id : JsValue)
| SearchItem (q type market limit offset include_external : JsValue).

Definition invoke (c : Call) : M JsValue :=
  match c with
  | GetCategories country locale limit offset =>
      getCategories country locale limit offset
  | GetCategory category_id country locale =>
      getCategory category_id country locale
  | GetCategoryPlaylist category_id country limit offset =>
      getCategoryPlaylist category_id country limit offset
  | GetRecommendations sa sg st limit market min_ max_ target_ =>
      getRecommendations sa sg st limit market min_ max_ target_
  | GetRecommendationGenres => getRecommendationGenres
  | GetNewReleases country limit offset =>
      getNewReleases country limit offset
  | GetFeaturedPlaylists country locale timestamp limit offset =>
      getFeaturedPlaylists country locale timestamp limit offset
  | GetArtists ids => getArtists ids
  | GetArtist id => getArtist id
  | GetArtistsAlbums id include_groups market limit offset =>
      getArtistsAlbums id include_groups market limit offset
  | GetArtistsTopTracks id market => getArtistsTopTracks id market
  | GetRelatedArtists id => getRelatedArtists id
  | GetCurrentPlaying market => getCurrentPlaying market
  | SetVolume volume_percent device_id => setVolume volume_percent device_id
  | GetPlaybackInfo market => getPlaybackInfo market
  | SkipPrevious device_id => skipPrevious device_id
  | GetRecentlyPlayed limit after before =>
      getRecentlyPlayed limit after before
  | SkipNext device_id => skipNext device_id
  | PausePlayback device_id => pausePlayback device_id
  | SetRepeatMode state device_id => setRepeatMode state device_id
  | StartPlayback device_id context_uri uris offset position_ms =>
      startPlayback device_id context_uri uris offset position_ms
  | SeekTo position_ms device_id => seekTo position_ms device_id
  | TransferPlayback device_ids play => transferPlayback device_ids play
  | ToggleShuffle state device_id => toggleShuffle state device_id
  | GetAvailableDevices => getAvailableDevices
  | GetUserProfile user_id => getUserProfile user_id
  | GetCurrentUser => getCurrentUser
  | GetFollowingState type ids => getFollowingState type ids
  | CheckIfUsersFollowPlaylist playlist_id ids =>
      checkIfUsersFollowPlaylist playlist_id ids
  | FollowUsersOrArtists type ids => followUsersOrArtists type ids
  | FollowPlaylist playlist_id visible => followPlaylist playlist_id visible
  | GetFollowedArtists type limit after =>
      getFollowedArtists type limit after
  | UnfollowArtistsOrUsers type ids => unfollowArtistsOrUsers type ids
  | UnfollowPlaylist playlist_id => unfollowPlaylist playlist_id
  | SearchItem q type market limit offset include_external =>
      searchItem q type market limit offset include_external
  end.

End Client.

(** ** Observing a call *)

(** The requests a method hands to the transport when run in [w]. *)
Definition requests_of {A : Type} (m : M A) (w : World) : list JsValue :=
  skipn (List.length (network w)) (network (snd (m w))).

(** [config.k] of a request configuration. *)
Definition field (config : JsValue) (k : string) : JsValue :=
  match config with
  | JObj props => Js.get props k
  | _ => JUndefined
  end.

(** The own property [k] of an object value, if it has one. *)
Definition entry (obj : JsValue) (k : string) : option JsValue :=
  match obj with
  | JObj props => Js.lookup props k
  | _ => None
  end.

(** The query parameter and the body member [k] of a request. *)
Definition query (config : JsValue) (k : string) : option JsValue :=
  entry (field config "params") k.

Definition body (config : JsValue) (k : string) : option JsValue :=
  entry (field config "data") k.

(** [m] sends exactly one request, with this verb, path, query parameters
    and body. *)
Definition issues (m : M JsValue) (verb path : string) (params data : JsValue)
  : Prop :=
  forall w, exists config,
    requests_of m w = [config] /\
    field config "method" = JStr verb /\
    field config "url" = JStr path /\
    field config "params" = params /\
    field config "data" = data.

(** [m] sends exactly one request, whose query parameter [k] is [v]. *)
Definition sends_query (m : M JsValue) (k : string) (v : JsValue) : Prop :=
  forall w, exists config,
    requests_of m w = [config] /\ query config k = Some v.

(** [m] sends exactly one request, whose body member [k] is [v]. *)
Definition sends_body (m : M JsValue) (k : string) (v : JsValue) : Prop :=
  forall w, exists config,
    requests_of m w = [config] /\ body config k = Some v.

(** Whatever request [m] sends has query parameter [k] equal to [v]. *)
Definition query_when_sent (m : M JsValue) (k : string) (v : JsValue) : Prop :=
  forall w config, requests_of m w = [config] -> query config k = Some v.

(** The configuration [performRequest] builds from the properties of an
    options object, for the token of [this]. *)
Definition request_config (token : JsValue) (options : list (string * JsValue))
  : JsValue :=
  JObj [ ("baseURL", JStr "https://api.spotify.com/v1");
         ("headers",
          JObj [("Authorization", JStr ("Bearer " ++ Js.ToString token))]);
         ("reponseType", JStr "json");
         ("url", Js.get options "url");
         ("method", Js.or (Js.get options "method") (JStr "GET"));
         ("params", Js.or (Js.get options "params") JNull);
         ("data", Js.or (Js.get options "data") JNull) ].

(** The scalars of the model: booleans, numbers and strings. *)
Definition is_scalar (v : JsValue) : bool :=
  match v with
  | JBool _ | JNum _ | JNaN | JStr _ => true
  | _ => false
  end.

(** The values on which [Js.ToString] is the string JavaScript gives:
    integers that a number holds exactly (up to 2^53 - 1 in size), and
    objects without a [toString] member of their own, on which the
    conversion would raise a [TypeError]; the elements of an array count
    too, since [join] converts them. *)
Fixpoint printable (v : JsValue) : bool :=
  match v with
  | JNum n => Z.leb (Z.abs n) 9007199254740991
  | JArr elems => forallb printable elems
  | JObj props =>
      match Js.lookup props "toString" with
      | Some _ => false
      | None => true
      end
  | _ => true
  end.

(** The verbs the endpoint methods write in their options. *)
Definition explicit_verb (options : list (string * JsValue)) : Prop :=
  Js.lookup options "method" = None \/
  Js.lookup options "method" = Some (JStr "PUT") \/
  Js.lookup options "method" = Some (JStr "POST") \/
  Js.lookup options "method" = Some (JStr "DELETE").

(** The query parameters [getRecommendations] starts from, before the
    bounds are added. *)
Definition recommendation_seeds
    (seed_artists seed_genres seed_tracks limit market : JsValue)
  : list (string * JsValue) :=
  [ ("seed_artists", filter_join (Js.default seed_artists (JArr [])));
    ("seed_genres", filter_join (Js.default seed_genres (JArr [])));
    ("seed_tracks", filter_join (Js.default seed_tracks (JArr [])));
    ("limit", Js.default limit (JNum 20)); ("market", market) ].

(** ** Sample transports and values *)

Definition error_404 : JsValue :=
  JObj [ ("status", JNum 404); ("message", JStr "not found") ].

(** A transport failure whose response body is the envelope
    [{error: {status: 404, message: "not found"}}]. *)
Definition failure_404 : JsValue :=
  JObj [ ("message", JStr "Request failed with status code 404");
         ("response", JObj [ ("status", JNum 404);
                             ("data", JObj [ ("error", error_404) ]) ]) ].

(** A transport failure without a response: the request never reached the
    server. *)
Definition network_failure : JsValue :=
  JObj [ ("message", JStr "Network Error"); ("code", JStr "ECONNREFUSED") ].

(** A transport failure whose response body is not an error envelope. *)
Definition gateway_failure : JsValue :=
  JObj [ ("message", JStr "Request failed with status code 502");
         ("response", JObj [ ("status", JNum 502);
                             ("data", JStr "<html>Bad Gateway</html>") ]) ].

Definition response_200 : JsValue :=
  JObj [ ("status", JNum 200); ("data", JObj [ ("items", JArr []) ]) ].

Definition axios_200 : JsValue -> Completion JsValue :=
  fun _ => Normal response_200.

Definition axios_404 : JsValue -> Completion JsValue :=
  fun _ => Abrupt (Thrown failure_404).

Definition axios_down : JsValue -> Completion JsValue :=
  fun _ => Abrupt (Thrown network_failure).

Definition axios_502 : JsValue -> Completion JsValue :=
  fun _ => Abrupt (Thrown gateway_failure).

(** An escape that leaves its argument's string form as it is, which is
    what [querystring.escape] does on unreserved characters. *)
Definition qs_plain : JsValue -> Completion JsValue :=
  fun v => Normal (JStr (Js.ToString v)).

Definition client0 : World := new_SpotifyWebApi (JStr "token").

(** The endpoint methods that can reject before anything is sent:
    [getRecommendations] enumerates its bounds and [searchItem] escapes its
    query before the options object is complete. *)
Definition rejects_early (c : Call) : bool :=
  match c with
  | GetRecommendations _ _ _ _ _ _ _ _ => true
  | SearchItem _ _ _ _ _ _ => true
  | _ => false
  end.

(** The verb an endpoint method writes in its options ([method: "PUT"]
    and the like), if it writes one. *)
Definition named_verb (c : Call) : option string :=
  match c with
  | SetVolume _ _ => Some "PUT"
  | SkipPrevious _ => Some "POST"
  | SkipNext _ => Some "POST"
  | PausePlayback _ => Some "PUT"
  | SetRepeatMode _ _ => Some "PUT"
  | StartPlayback _ _ _ _ _ => Some "PUT"
  | SeekTo _ _ => Some "PUT"
  | TransferPlayback _ _ => Some "PUT"
  | ToggleShuffle _ _ => Some "PUT"
  | FollowUsersOrArtists _ _ => Some "PUT"
  | FollowPlaylist _ _ => Some "PUT"
  | UnfollowArtistsOrUsers _ _ => Some "DELETE"
  | _ => None
  end.

(** The arguments of a call, in the order of the method's signature. *)
Definition arguments (c : Call) : list JsValue :=
  match c with
  | GetCategories country locale limit offset =>
      [country; locale; limit; offset]
  | GetCategory category_id country locale => [category_id; country; locale]
  | GetCategoryPlaylist category_id country limit offset =>
      [category_id; country; limit; offset]
  | GetRecommendations sa sg st limit market min_ max_ target_ =>
      [sa; sg; st; limit; market; min_; max_; target_]
  | GetRecommendationGenres => []
  | GetNewReleases country limit offset => [country; limit; offset]
  | GetFeaturedPlaylists country locale timestamp limit offset =>
      [country; locale; timestamp; limit; offset]
  | GetArtists ids => [ids]
  | GetArtist id => [id]
  | GetArtistsAlbums id include_groups market limit offset =>
      [id; include_groups; market; limit; offset]
  | GetArtistsTopTracks id market => [id; market]
  | GetRelatedArtists id => [id]
  | GetCurrentPlaying market => [market]
  | SetVolume volume_percent device_id => [volume_percent; device_id]
  | GetPlaybackInfo market => [market]
  | SkipPrevious device_id => [device_id]
  | GetRecentlyPlayed limit after before => [limit; after; before]
  | SkipNext device_id => [device_id]
  | PausePlayback device_id => [device_id]
  | SetRepeatMode state device_id => [state; device_id]
  | StartPlayback device_id context_uri uris offset position_ms =>
      [device_id; context_uri; uris; offset; position_ms]
  | SeekTo position_ms device_id => [position_ms; device_id]
  | TransferPlayback device_ids play => [device_ids; play]
  | ToggleShuffle state device_id => [state; device_id]
  | GetAvailableDevices => []
  | GetUserProfile user_id => [user_id]
  | GetCurrentUser => []
  | GetFollowingState type ids => [type; ids]
  | CheckIfUsersFollowPlaylist playlist_id ids => [playlist_id; ids]
  | FollowUsersOrArtists type ids => [type; ids]
  | FollowPlaylist playlist_id visible => [playlist_id; visible]
  | GetFollowedArtists type limit after => [type; limit; after]
  | UnfollowArtistsOrUsers type ids => [type; ids]
  | UnfollowPlaylist playlist_id => [playlist_id]
  | SearchItem q type market limit offset include_external =>
      [q; type; market; limit; offset; include_external]
  end.

(** The query parameter that a member of a bounds object becomes. *)
Definition prefixed (prefix : string) (kv : string * JsValue)
  : string * JsValue :=
  (prefix ++ fst kv, snd kv).

(** An escape that throws, as [querystring.escape] does on a malformed
    surrogate pair. *)
Definition qs_malformed : JsValue -> Completion JsValue :=
  fun _ => Abrupt (Thrown (JStr "URIError: URI malformed")).

(** * Properties *)

(** ** JavaScript operations *)

Lemma eqb_same (k : string) : String.eqb k k = true.
Proof. apply String.eqb_refl. Qed.

Lemma lookup_set_same (props : list (string * JsValue)) k v :
  Js.lookup (Js.set props k v) k = Some v.
Proof.
  induction props as [|[k' v'] rest IH]; simpl.
  - now rewrite eqb_same.
  - destruct (String.eqb k' k) eqn:E; simpl; rewrite E; auto.
Qed.

Lemma lookup_set_other (props : list (string * JsValue)) k k' v :
  k <> k' -> Js.lookup (Js.set props k v) k' = Js.lookup props k'.
Proof.
  intros Hne.
  induction props as [|[k0 v0] rest IH]; simpl.
  - destruct (String.eqb k k') eqn:E; auto.
    apply String.eqb_eq in E. contradiction.
  - destruct (String.eqb k0 k) eqn:E; simpl.
    + apply String.eqb_eq in E. subst k0.
      destruct (String.eqb k k') eqn:E'; auto.
      apply String.eqb_eq in E'. contradiction.
    + now rewrite IH.
Qed.

Lemma append_inj (p a b : string) : p ++ a = p ++ b -> a = b.
Proof.
  induction p as [|c p IH]; simpl; intros H; auto.
  injection H as H. auto.
Qed.

(** A property not written by the loop keeps its value. *)
Lemma assign_entries_other prefix entries : forall params key,
  (forall k, In k (map fst entries) -> prefix ++ k <> key) ->
  Js.lookup (assign_entries prefix params entries) key = Js.lookup params key.
Proof.
  unfold assign_entries.
  induction entries as [|[k0 v0] rest IH]; intros params key Hfresh; simpl.
  - reflexivity.
  - rewrite IH.
    + apply lookup_set_other. apply Hfresh. simpl. now left.
    + intros k Hk. apply Hfresh. simpl. now right.
Qed.

(** A property written by the loop has the value of its entry. *)
Lemma assign_entries_In prefix entries : forall params k v,
  NoDup (map fst entries) ->
  In (k, v) entries ->
  Js.lookup (assign_entries prefix params entries) (prefix ++ k) = Some v.
Proof.
  induction entries as [|[k0 v0] rest IH]; intros params k v Hnd Hin.
  - destruct Hin.
  - simpl in Hnd. inversion Hnd as [|? ? Hnotin Hnd']; subst.
    destruct Hin as [Heq | Hin].
    + injection Heq as -> ->.
      change (assign_entries prefix params ((k, v) :: rest))
        with (assign_entries prefix (Js.set params (prefix ++ k) v) rest).
      rewrite assign_entries_other.
      * apply lookup_set_same.
      * intros k' Hk' Heq. apply append_inj in Heq. subst k'. contradiction.
    + change (assign_entries prefix params ((k0, v0) :: rest))
        with (assign_entries prefix (Js.set params (prefix ++ k0) v0) rest).
      now apply IH.
Qed.

Lemma ToString_array (elems : list JsValue) :
  Js.ToString (JArr elems) = Js.join elems ",".
Proof. reflexivity. Qed.

Lemma join_strings (l : list string) (sep : string) :
  Js.join (map JStr l) sep = String.concat sep l.
Proof.
  unfold Js.join. rewrite map_map. simpl. now rewrite map_id.
Qed.

(** An array is truthy, so the pattern keeps it and joins its elements. *)
Lemma filter_join_array (elems : list JsValue) :
  filter_join (JArr elems) = JStr (Js.join elems ",").
Proof.
  unfold filter_join, Js.filter_Boolean.
  change (filter Js.Boolean [JArr elems]) with [JArr elems].
  change (Js.join [JArr elems] ",") with (Js.ToString (JArr elems)).
  now rewrite ToString_array.
Qed.

Lemma filter_join_falsy (x : JsValue) :
  Js.Boolean x = false -> filter_join x = JStr "".
Proof.
  intros H. unfold filter_join, Js.filter_Boolean. simpl. now rewrite H.
Qed.

Lemma filter_join_truthy_scalar (x : JsValue) :
  is_scalar x = true -> Js.Boolean x = true ->
  filter_join x = JStr (Js.ToString x).
Proof.
  intros Hs H. unfold filter_join, Js.filter_Boolean. simpl. rewrite H.
  destruct x; simpl in *; try discriminate; reflexivity.
Qed.

Lemma skipn_length_app {A : Type} (l r : list A) :
  skipn (List.length l) (l ++ r)%list = r.
Proof. induction l; simpl; auto. Qed.

Lemma entries_of_default (x : JsValue) :
  (x = JNull /\
   Js.Object_entries (Js.default x (JObj [])) = Abrupt TypeError) \/
  (x <> JNull /\
   exists entries,
     Js.Object_entries (Js.default x (JObj [])) = Normal entries).
Proof.
  destruct x; simpl;
    try (right; split; [discriminate | eexists; reflexivity]).
  left. split; reflexivity.
Qed.

Lemma set_fresh (props : list (string * JsValue)) k v :
  ~ In k (map fst props) -> Js.set props k v = (props ++ [(k, v)])%list.
Proof.
  induction props as [|[k' v'] rest IH]; simpl; intros Hfresh.
  - reflexivity.
  - destruct (String.eqb k' k) eqn:E.
    + apply String.eqb_eq in E. tauto.
    + rewrite IH; tauto.
Qed.

(** Entries whose prefixed keys are new are appended in order. *)
Lemma assign_entries_fresh prefix entries : forall params,
  NoDup (map fst entries) ->
  (forall k, In k (map fst entries) ->
             ~ In (prefix ++ k) (map fst params)) ->
  assign_entries prefix params entries
  = (params ++ map (prefixed prefix) entries)%list.
Proof.
  induction entries as [|[k0 v0] rest IH]; intros params Hnd Hfresh.
  - simpl. now rewrite app_nil_r.
  - simpl in Hnd. inversion Hnd as [|? ? Hnotin Hnd']; subst.
    change (assign_entries prefix params ((k0, v0) :: rest))
      with (assign_entries prefix (Js.set params (prefix ++ k0) v0) rest).
    rewrite set_fresh by (apply Hfresh; simpl; now left).
    rewrite IH; auto.
    + rewrite <- app_assoc. reflexivity.
    + intros k Hk. rewrite map_app, in_app_iff. simpl.
      intros [Hin | [Heq | []]].
      * apply (Hfresh k); simpl; auto.
      * apply append_inj in Heq. subst k0. contradiction.
Qed.

Lemma prefixed_key_fresh prefix prefix' (entries : list (string * JsValue)) k :
  (forall a b, prefix ++ a <> prefix' ++ b) ->
  ~ In (prefix ++ k) (map fst (map (prefixed prefix') entries)).
Proof.
  intros Hdiff Hin. rewrite map_map in Hin.
  apply in_map_iff in Hin as (kv & Heq & _). simpl in Heq.
  symmetry in Heq. exact (Hdiff _ _ Heq).
Qed.

Lemma seed_key_fresh prefix k
    seed_artists seed_genres seed_tracks limit market :
  prefix = "min_" \/ prefix = "max_" \/ prefix = "target_" ->
  ~ In (prefix ++ k)
      (map fst (recommendation_seeds seed_artists seed_genres seed_tracks
                  limit market)).
Proof.
  intros [-> | [-> | ->]] Hin; simpl in Hin;
    repeat (destruct Hin as [Hin | Hin]; [discriminate|]);
    destruct Hin.
Qed.

Lemma bound_key_fresh prefix k (base : list (string * JsValue)) :
  prefix = "min_" \/ prefix = "max_" \/ prefix = "target_" ->
  map fst base
  = ["seed_artists"; "seed_genres"; "seed_tracks"; "limit"; "market"] ->
  ~ In (prefix ++ k) (map fst base).
Proof.
  intros Hprefix -> Hin.
  destruct Hprefix as [-> | [-> | ->]]; simpl in Hin;
    repeat (destruct Hin as [Hin | Hin]; [discriminate|]);
    destruct Hin.
Qed.

(** The three loops of [getRecommendations] on parameters that hold the
    seeds, [limit] and [market]: the members of the bounds are appended
    under their prefixed names, in order. *)
Lemma assign_bounds_exactly (base mn mx tg : list (string * JsValue)) :
  map fst base
  = ["seed_artists"; "seed_genres"; "seed_tracks"; "limit"; "market"] ->
  NoDup (map fst mn) -> NoDup (map fst mx) -> NoDup (map fst tg) ->
  assign_entries "target_"
    (assign_entries "max_" (assign_entries "min_" base mn) mx) tg
  = (base ++ map (prefixed "min_") mn ++ map (prefixed "max_") mx
     ++ map (prefixed "target_") tg)%list.
Proof.
  intros Hbase Hmn Hmx Htg.
  rewrite (assign_entries_fresh "min_" mn); auto.
  - rewrite (assign_entries_fresh "max_" mx); auto.
    + rewrite (assign_entries_fresh "target_" tg); auto.
      * now rewrite <- !app_assoc.
      * intros k _. rewrite !map_app, !in_app_iff.
        intros [[Hin | Hin] | Hin].
        -- revert Hin. apply bound_key_fresh; auto.
        -- revert Hin. apply prefixed_key_fresh.
           intros a b; simpl; discriminate.
        -- revert Hin. apply prefixed_key_fresh.
           intros a b; simpl; discriminate.
    + intros k _. rewrite map_app, in_app_iff.
      intros [Hin | Hin].
      * revert Hin. apply bound_key_fresh; auto.
      * revert Hin. apply prefixed_key_fresh.
        intros a b; simpl; discriminate.
  - intros k _. apply bound_key_fresh; auto.
Qed.

(** ** The dispatcher *)

Section Dispatcher.

Variable axios : JsValue -> Completion JsValue.
Variable qs_escape : JsValue -> Completion JsValue.

(** [performRequest] on an options object, step by step: one request is
    handed to the transport, a response is returned as it is, and a
    rejection is replaced by what reading [e.response.data.error]
    gives. *)
Lemma performRequest_run options w :
  performRequest axios (JObj options) w
  = let config := request_config (access_token (this w)) options in
    let w' := {| this := this w; console := console w;
                 network := network w ++ [config] |} in
    match axios config with
    | Normal response => (Normal response, w')
    | Abrupt e =>
        match Js.member_exn e "response" with
        | Abrupt x => (Abrupt x, w')
        | Normal response =>
            match Js.member response "data" with
            | Abrupt x => (Abrupt x, w')
            | Normal data =>
                match Js.member data "error" with
                | Abrupt x => (Abrupt x, w')
                | Normal error => (Abrupt (Thrown error), w')
                end
            end
        end
    end.
Proof.
  cbv beta iota zeta delta
    [performRequest try_catch bind lift read_access_token
     await_axios ret throw request_config].
  change (Js.member (JObj options) "url") with (Normal (Js.get options "url")).
  change (Js.member (JObj options) "method")
    with (Normal (Js.get options "method")).
  change (Js.member (JObj options) "params")
    with (Normal (Js.get options "params")).
  change (Js.member (JObj options) "data")
    with (Normal (Js.get options "data")).
  cbv beta iota.
  destruct (axios _) as [r|e]; [reflexivity|].
  destruct (Js.member_exn e "response") as [resp|]; [|reflexivity].
  destruct (Js.member resp "data") as [d|]; [|reflexivity].
  destruct (Js.member d "error"); reflexivity.
Qed.

Lemma performRequest_world options w :
  snd (performRequest axios (JObj options) w)
  = {| this := this w; console := console w;
       network := network w
                  ++ [request_config (access_token (this w)) options] |}.
Proof.
  rewrite performRequest_run. cbv zeta.
  destruct (axios _) as [r|e]; [reflexivity|].
  destruct (Js.member_exn e "response") as [resp|]; [|reflexivity].
  destruct (Js.member resp "data") as [d|]; [|reflexivity].
  destruct (Js.member d "error"); reflexivity.
Qed.

Lemma performRequest_resolved options w r :
  axios (request_config (access_token (this w)) options) = Normal r ->
  fst (performRequest axios (JObj options) w) = Normal r.
Proof.
  intros H. rewrite performRequest_run. cbv zeta. now rewrite H.
Qed.

Lemma performRequest_rejected options w e :
  axios (request_config (access_token (this w)) options) = Abrupt e ->
  fst (performRequest axios (JObj options) w)
  = match Js.member_exn e "response" with
    | Abrupt x => Abrupt x
    | Normal response =>
        match Js.member response "data" with
        | Abrupt x => Abrupt x
        | Normal data =>
            match Js.member data "error" with
            | Abrupt x => Abrupt x
            | Normal error => Abrupt (Thrown error)
            end
        end
    end.
Proof.
  intros H. rewrite performRequest_run. cbv zeta. rewrite H.
  destruct (Js.member_exn e "response") as [resp|]; [|reflexivity].
  destruct (Js.member resp "data") as [d|]; [|reflexivity].
  destruct (Js.member d "error"); reflexivity.
Qed.

Lemma performRequest_requests options w :
  requests_of (performRequest axios (JObj options)) w
  = [request_config (access_token (this w)) options].
Proof.
  unfold requests_of. rewrite performRequest_world. simpl.
  apply skipn_length_app.
Qed.

(** Every endpoint method either delegates to [performRequest] with an
    options object whose [url] is a path, or rejects before anything is
    sent. *)
Lemma invoke_cases (c : Call) (w : World) :
  (exists options path,
      invoke axios qs_escape c w = performRequest axios (JObj options) w /\
      Js.lookup options "url" = Some (JStr (String "/" path)) /\
      explicit_verb options)
  \/ (exists e, invoke axios qs_escape c w = (Abrupt e, w)).
Proof.
  unfold explicit_verb.
  destruct c; simpl;
    try (left; eexists; eexists; split;
         [reflexivity | split; [reflexivity | simpl; tauto]]).
  - unfold getRecommendations, bind, lift.
    destruct (Js.Object_entries (Js.default min_ _)); [|right; eauto].
    destruct (Js.Object_entries (Js.default max_ _)); [|right; eauto].
    destruct (Js.Object_entries (Js.default target_ _)); [|right; eauto].
    left; eexists; eexists; split;
      [reflexivity | split; [reflexivity | simpl; tauto]].
  - unfold searchItem, bind, lift.
    destruct (qs_escape q); [|right; eauto].
    left; eexists; eexists; split;
      [reflexivity | split; [reflexivity | simpl; tauto]].
Qed.

Lemma requests_of_nothing_sent {A : Type} (m : M A) w r :
  m w = (r, w) -> requests_of m w = [].
Proof.
  intros H. unfold requests_of. rewrite H. simpl. apply skipn_all.
Qed.

(** The request of a call, when it sends one, is the configuration
    [performRequest] builds from the method's options. *)
Lemma invoke_request (c : Call) (w : World) (config : JsValue) :
  requests_of (invoke axios qs_escape c) w = [config] ->
  exists options path,
    invoke axios qs_escape c w = performRequest axios (JObj options) w /\
    config = request_config (access_token (this w)) options /\
    Js.lookup options "url" = Some (JStr (String "/" path)) /\
    explicit_verb options.
Proof.
  intros Hsent.
  destruct (invoke_cases c w)
    as [(options & path & Hrun & Hurl & Hverb) | [e Hrun]].
  - exists options, path. repeat split; auto.
    unfold requests_of in Hsent. rewrite Hrun in Hsent.
    fold (requests_of (performRequest axios (JObj options)) w) in Hsent.
    rewrite performRequest_requests in Hsent. congruence.
  - rewrite (requests_of_nothing_sent _ _ _ Hrun) in Hsent. discriminate.
Qed.

(** The options of a call name the verb of [named_verb], or none. *)
Lemma invoke_request_verb (c : Call) (w : World) (config : JsValue) :
  requests_of (invoke axios qs_escape c) w = [config] ->
  exists options path,
    invoke axios qs_escape c w = performRequest axios (JObj options) w /\
    config = request_config (access_token (this w)) options /\
    Js.lookup options "url" = Some (JStr (String "/" path)) /\
    Js.lookup options "method" = option_map JStr (named_verb c).
Proof.
  intros Hsent.
  assert (Hcases :
            (exists options path,
                invoke axios qs_escape c w
                = performRequest axios (JObj options) w /\
                Js.lookup options "url" = Some (JStr (String "/" path)) /\
                Js.lookup options "method" = option_map JStr (named_verb c))
            \/ (exists e, invoke axios qs_escape c w = (Abrupt e, w))).
  { destruct c; simpl;
      try (left; eexists; eexists; split;
           [reflexivity | split; reflexivity]).
    - unfold getRecommendations, bind, lift.
      destruct (Js.Object_entries (Js.default min_ _)); [|right; eauto].
      destruct (Js.Object_entries (Js.default max_ _)); [|right; eauto].
      destruct (Js.Object_entries (Js.default target_ _)); [|right; eauto].
      left; eexists; eexists; split; [reflexivity | split; reflexivity].
    - unfold searchItem, bind, lift.
      destruct (qs_escape q); [|right; eauto].
      left; eexists; eexists; split; [reflexivity | split; reflexivity]. }
  destruct Hcases as [(options & path & Hrun & Hurl & Hverb) | [e Hrun]].
  - exists options, path. repeat split; auto.
    unfold requests_of in Hsent. rewrite Hrun in Hsent.
    fold (requests_of (performRequest axios (JObj options)) w) in Hsent.
    rewrite performRequest_requests in Hsent. congruence.
  - rewrite (requests_of_nothing_sent _ _ _ Hrun) in Hsent. discriminate.
Qed.

(** A call sends at most one request. *)
Lemma invoke_at_most_one (c : Call) (w : World) :
  requests_of (invoke axios qs_escape c) w = [] \/
  exists config, requests_of (invoke axios qs_escape c) w = [config].
Proof.
  destruct (invoke_cases c w) as [(options & path & Hrun & _) | [e Hrun]].
  - right. eexists. unfold requests_of. rewrite Hrun.
    apply performRequest_requests.
  - left. eapply requests_of_nothing_sent; eauto.
Qed.

End Dispatcher.

(** ** The endpoint methods *)

Section Endpoints.

Variable axios : JsValue -> Completion JsValue.
Variable qs_escape : JsValue -> Completion JsValue.

(** C1: for every endpoint method whose request reaches the transport,
    a response is returned to the caller as it is, and a rejection whose
    response body is an error envelope makes the call throw exactly the
    value of the body's [error] field. *)
Theorem error_envelope_is_thrown (c : Call) (w : World) (config : JsValue) :
  requests_of (invoke axios qs_escape c) w = [config] ->
  (forall response,
      axios config = Normal response ->
      fst (invoke axios qs_escape c w) = Normal response) /\
  (forall e response data error,
      axios config = Abrupt (Thrown e) ->
      Js.member e "response" = Normal response ->
      Js.member response "data" = Normal data ->
      entry data "error" = Some error ->
      fst (invoke axios qs_escape c w) = Abrupt (Thrown error)).
Proof.
  intros Hsent.
  destruct (invoke_request _ _ _ _ _ Hsent)
    as (options & path & Hrun & -> & _).
  rewrite Hrun. split.
  - intros response Hok. now apply performRequest_resolved.
  - intros e response data error Hfail Hresp Hdata Herr.
    rewrite (performRequest_rejected _ _ _ _ Hfail).
    simpl. rewrite Hresp, Hdata.
    destruct data; simpl in Herr; try discriminate.
    simpl. unfold Js.get. now rewrite Herr.
Qed.

(** C7: for every endpoint method, a rejection that carries no response
    is not passed on: reading [e.response.data] raises a [TypeError], and
    that is what the caller gets. *)
Theorem missing_response_raises_TypeError
    (c : Call) (w : World) (config e : JsValue) :
  requests_of (invoke axios qs_escape c) w = [config] ->
  axios config = Abrupt (Thrown e) ->
  Js.member e "response" = Normal JUndefined ->
  fst (invoke axios qs_escape c w) = Abrupt TypeError /\
  fst (invoke axios qs_escape c w) <> Abrupt (Thrown e).
Proof.
  intros Hsent Hfail Hresp.
  destruct (invoke_request _ _ _ _ _ Hsent)
    as (options & path & Hrun & -> & _).
  rewrite Hrun, (performRequest_rejected _ _ _ _ Hfail).
  simpl. rewrite Hresp. simpl. split; [reflexivity | discriminate].
Qed.

(** A rejection whose response body has no [error] member makes the call
    throw [undefined], or raise a [TypeError] when there is no body. *)
Lemma malformed_body_throws_undefined
    (c : Call) (w : World) (config e response data : JsValue) :
  requests_of (invoke axios qs_escape c) w = [config] ->
  axios config = Abrupt (Thrown e) ->
  Js.member e "response" = Normal response ->
  Js.member response "data" = Normal data ->
  entry data "error" = None ->
  fst (invoke axios qs_escape c w)
  = match data with
    | JUndefined | JNull => Abrupt TypeError
    | _ => Abrupt (Thrown JUndefined)
    end.
Proof.
  intros Hsent Hfail Hresp Hdata Herr.
  destruct (invoke_request _ _ _ _ _ Hsent)
    as (options & path & Hrun & -> & _).
  rewrite Hrun, (performRequest_rejected _ _ _ _ Hfail).
  cbn [Js.member_exn]. rewrite Hresp, Hdata.
  destruct data; try reflexivity.
  cbn [entry] in Herr. cbn [Js.member]. unfold Js.get. now rewrite Herr.
Qed.

(** C6: every request of every endpoint method has the base URL
    [https://api.spotify.com/v1], a path starting with [/] as its [url],
    the header [Authorization: Bearer <token>] for the token stored in
    [this], and as its verb the one the method names in its options, or
    [GET] when the method names none. *)
Theorem wire_contract (c : Call) (w : World) (config : JsValue) :
  requests_of (invoke axios qs_escape c) w = [config] ->
  field config "baseURL" = JStr "https://api.spotify.com/v1" /\
  field config "headers"
  = JObj [("Authorization",
           JStr ("Bearer " ++ Js.ToString (access_token (this w))))] /\
  field config "method"
  = JStr (match named_verb c with
          | Some verb => verb
          | None => "GET"
          end) /\
  exists options path,
    invoke axios qs_escape c w = performRequest axios (JObj options) w /\
    Js.lookup options "url" = Some (JStr (String "/" path)) /\
    field config "url" = JStr (String "/" path) /\
    Js.lookup options "method" = option_map JStr (named_verb c).
Proof.
  intros Hsent.
  destruct (invoke_request_verb _ _ _ _ _ Hsent)
    as (options & path & Hrun & -> & Hurl & Hverb).
  split; [reflexivity|]. split; [reflexivity|]. split.
  - change (field (request_config ?t ?o) "method")
      with (Js.or (Js.get o "method") (JStr "GET")).
    unfold Js.get. rewrite Hverb.
    destruct (named_verb c) as [verb|] eqn:Hnamed; [|reflexivity].
    destruct c; simpl in Hnamed; try discriminate;
      injection Hnamed as <-; reflexivity.
  - exists options, path. split; [exact Hrun|]. split; [exact Hurl|].
    split; [|exact Hverb].
    change (field (request_config ?t ?o) "url") with (Js.get o "url").
    unfold Js.get. now rewrite Hurl.
Qed.

(** C9: no endpoint method, and no call of [performRequest], changes
    [this]: the stored token after the call is the one before it; the
    constructor is what writes it, storing the argument or [null]. *)
Theorem access_token_unchanged :
  (forall (c : Call) (w : World),
      this (snd (invoke axios qs_escape c w)) = this w /\
      access_token (this (snd (invoke axios qs_escape c w)))
      = access_token (this w)) /\
  (forall (options : JsValue) (w : World),
      access_token (this (snd (performRequest axios options w)))
      = access_token (this w)) /\
  (forall token : JsValue,
      access_token (this (new_SpotifyWebApi token)) = Js.or token JNull).
Proof.
  split; [|split].
  - intros c w.
    assert (H : this (snd (invoke axios qs_escape c w)) = this w).
    { destruct (invoke_cases axios qs_escape c w)
        as [(options & path & Hrun & _) | [e Hrun]]; rewrite Hrun.
      - now rewrite performRequest_world.
      - reflexivity. }
    split; [exact H | now rewrite H].
  - intros options w.
    unfold performRequest, try_catch, bind, lift, read_access_token,
      await_axios, ret, throw.
    destruct options; simpl; try reflexivity;
      (destruct (axios _) as [r|e]; simpl; [reflexivity|];
       destruct (Js.member_exn e "response") as [resp|]; simpl;
       [|reflexivity];
       destruct (Js.member resp "data") as [d|]; simpl; [|reflexivity];
       destruct (Js.member d "error"); reflexivity).
  - intros token. reflexivity.
Qed.

(** C10: [unfollowPlaylist] sends its request to
    [/playlists/<playlist_id>/followers] with the verb [GET], its options
    naming none, whereas [unfollowArtistsOrUsers] sends [DELETE]. *)
Theorem unfollowPlaylist_uses_GET :
  (forall (playlist_id : JsValue) (w : World),
      exists config,
        requests_of (unfollowPlaylist axios playlist_id) w = [config] /\
        field config "url"
        = JStr ("/playlists/" ++ Js.ToString playlist_id ++ "/followers") /\
        field config "method" = JStr "GET") /\
  (forall (type ids : JsValue) (w : World),
      exists config,
        requests_of (unfollowArtistsOrUsers axios type ids) w = [config] /\
        field config "url" = JStr "/me/following" /\
        field config "method" = JStr "DELETE").
Proof.
  split; intros; eexists;
    (split; [apply performRequest_requests | split; reflexivity]).
Qed.

End Endpoints.

(** ** Request templates *)

Section Templates.

Variable axios : JsValue -> Completion JsValue.
Variable qs_escape : JsValue -> Completion JsValue.

Ltac unfold_method :=
  cbv beta iota zeta delta
    [getCategories getCategory getCategoryPlaylist getRecommendations
     getRecommendationGenres getNewReleases getFeaturedPlaylists getArtists
     getArtist getArtistsAlbums getArtistsTopTracks getRelatedArtists
     getCurrentPlaying setVolume getPlaybackInfo skipPrevious
     getRecentlyPlayed skipNext pausePlayback setRepeatMode startPlayback
     seekTo transferPlayback toggleShuffle getAvailableDevices
     getUserProfile getCurrentUser getFollowingState
     checkIfUsersFollowPlaylist followUsersOrArtists followPlaylist
     getFollowedArtists unfollowArtistsOrUsers unfollowPlaylist
     bind lift Js.default Js.Object_entries].

Ltac sent_request :=
  unfold requests_of; unfold_method;
  rewrite performRequest_world; cbn [network]; apply skipn_length_app.

Ltac show_issues :=
  unfold issues; intros; eexists;
  split; [sent_request |];
  rewrite <- ?join_strings, <- ?filter_join_array;
  repeat split; reflexivity.

(** C2: the request of every endpoint method, for arguments of the
    documented types: its verb, its path, its query parameters (for
    [getRecommendations] the seeds, [limit] and [market] followed by the
    members of the bounds under their prefixed names) and its body.
    [getArtist("abc")] sends [GET /artists/abc] with neither, and
    [setVolume(70, "dev1")] sends [PUT /me/player/volume] with the query
    parameters [{volume_percent: 70, device_id: "dev1"}]. *)
Theorem request_templates :
  issues (getArtist axios (JStr "abc")) "GET" "/artists/abc" JNull JNull /\
  issues (setVolume axios (JNum 70) (JStr "dev1"))
    "PUT" "/me/player/volume"
    (JObj [("volume_percent", JNum 70); ("device_id", JStr "dev1")]) JNull /\
  (* Browse *)
  (forall (country locale : string) (limit offset : Z),
      issues (getCategories axios (JStr country) (JStr locale)
                (JNum limit) (JNum offset))
        "GET" "/browse/categories"
        (JObj [("country", JStr country); ("locale", JStr locale);
               ("limit", JNum limit); ("offset", JNum offset)])
        JNull) /\
  (forall category_id country locale : string,
      issues (getCategory axios (JStr category_id) (JStr country)
                (JStr locale))
        "GET" ("/browse/categories/" ++ category_id)
        (JObj [("country", JStr country); ("locale", JStr locale)])
        JNull) /\
  (forall (category_id country : string) (limit offset : Z),
      issues (getCategoryPlaylist axios (JStr category_id) (JStr country)
                (JNum limit) (JNum offset))
        "GET" ("/browse/categories/" ++ category_id ++ "/playlists")
        (JObj [("country", JStr country); ("limit", JNum limit);
               ("offset", JNum offset)])
        JNull) /\
  (forall (seed_artists seed_genres seed_tracks : list string) (limit : Z)
          (market : string) (min_ max_ target_ : list (string * JsValue)),
      NoDup (map fst min_) -> NoDup (map fst max_) ->
      NoDup (map fst target_) ->
      issues (getRecommendations axios
                (JArr (map JStr seed_artists)) (JArr (map JStr seed_genres))
                (JArr (map JStr seed_tracks)) (JNum limit) (JStr market)
                (JObj min_) (JObj max_) (JObj target_))
        "GET" "/recommendations"
        (JObj
           ([("seed_artists", JStr (String.concat "," seed_artists));
             ("seed_genres", JStr (String.concat "," seed_genres));
             ("seed_tracks", JStr (String.concat "," seed_tracks));
             ("limit", JNum limit); ("market", JStr market)]
            ++ map (fun kv => (("min_" ++ fst kv)%string, snd kv)) min_
            ++ map (fun kv => (("max_" ++ fst kv)%string, snd kv)) max_
            ++ map (fun kv => (("target_" ++ fst kv)%string, snd kv))
                 target_)%list)
        JNull) /\
  issues (getRecommendationGenres axios)
    "GET" "/recommendations/available-genre-seeds" JNull JNull /\
  (forall (country : string) (limit offset : Z),
      issues (getNewReleases axios (JStr country) (JNum limit) (JNum offset))
        "GET" "/browse/new-releases"
        (JObj [("country", JStr country); ("limit", JNum limit);
               ("offset", JNum offset)])
        JNull) /\
  (forall (country locale timestamp : string) (limit offset : Z),
      issues (getFeaturedPlaylists axios (JStr country) (JStr locale)
                (JStr timestamp) (JNum limit) (JNum offset))
        "GET" "/browse/featured-playlists"
        (JObj [("country", JStr country); ("locale", JStr locale);
               ("timestamp", JStr timestamp); ("limit", JNum limit);
               ("offset", JNum offset)])
        JNull) /\
  (* Artists *)
  (forall ids : list string,
      issues (getArtists axios (JArr (map JStr ids)))
        "GET" "/artists"
        (JObj [("ids", JStr (String.concat "," ids))]) JNull) /\
  (forall id : string,
      issues (getArtist axios (JStr id)) "GET" ("/artists/" ++ id)
        JNull JNull) /\
  (forall (id : string) (include_groups : list string) (market : string)
          (limit offset : Z),
      issues (getArtistsAlbums axios (JStr id)
                (JArr (map JStr include_groups)) (JStr market)
                (JNum limit) (JNum offset))
        "GET" ("/artists/" ++ id ++ "/albums")
        (JObj [("include_groups",
                JStr (String.concat "," include_groups));
               ("market", JStr market); ("limit", JNum limit);
               ("offset", JNum offset)])
        JNull) /\
  (forall id market : string,
      issues (getArtistsTopTracks axios (JStr id) (JStr market))
        "GET" ("/artists/" ++ id ++ "/top-tracks")
        (JObj [("market", JStr market)]) JNull) /\
  (forall id : string,
      issues (getRelatedArtists axios (JStr id))
        "GET" ("/artists/" ++ id ++ "/related-artists") JNull JNull) /\
  (* Player *)
  (forall market : string,
      issues (getCurrentPlaying axios (JStr market))
        "GET" "/me/player/currently-playing"
        (JObj [("market", JStr market)]) JNull) /\
  (forall (volume_percent : Z) (device_id : string),
      issues (setVolume axios (JNum volume_percent) (JStr device_id))
        "PUT" "/me/player/volume"
        (JObj [("volume_percent", JNum volume_percent);
               ("device_id", JStr device_id)])
        JNull) /\
  (forall market : string,
      issues (getPlaybackInfo axios (JStr market)) "GET" "/me/player"
        (JObj [("market", JStr market)]) JNull) /\
  (forall device_id : string,
      issues (skipPrevious axios (JStr device_id))
        "POST" "/me/player/previous"
        (JObj [("device_id", JStr device_id)]) JNull) /\
  (forall limit after before : Z,
      issues (getRecentlyPlayed axios (JNum limit) (JNum after)
                (JNum before))
        "GET" "/me/player/recently-played"
        (JObj [("limit", JNum limit); ("after", JNum after);
               ("before", JNum before)])
        JNull) /\
  (forall device_id : string,
      issues (skipNext axios (JStr device_id)) "POST" "/me/player/next"
        (JObj [("device_id", JStr device_id)]) JNull) /\
  (forall device_id : string,
      issues (pausePlayback axios (JStr device_id)) "PUT" "/me/player/pause"
        (JObj [("device_id", JStr device_id)]) JNull) /\
  (forall state device_id : string,
      issues (setRepeatMode axios (JStr state) (JStr device_id))
        "PUT" "/me/player/repeat"
        (JObj [("state", JStr state); ("device_id", JStr device_id)])
        JNull) /\
  (forall (device_id context_uri : string) (uris : list string)
          (offset : list (string * JsValue)) (position_ms : Z),
      issues (startPlayback axios (JStr device_id) (JStr context_uri)
                (JArr (map JStr uris)) (JObj offset) (JNum position_ms))
        "PUT" "/me/player/play"
        (JObj [("device_id", JStr device_id)])
        (JObj [("context_uri", JStr context_uri);
               ("uris", JArr (map JStr uris)); ("offset", JObj offset);
               ("position_ms", JNum position_ms)])) /\
  (forall (position_ms : Z) (device_id : string),
      issues (seekTo axios (JNum position_ms) (JStr device_id))
        "PUT" "/me/player/seek"
        (JObj [("position_ms", JNum position_ms);
               ("device_id", JStr device_id)])
        JNull) /\
  (forall (device_ids : list string) (play : bool),
      issues (transferPlayback axios (JArr (map JStr device_ids))
                (JBool play))
        "PUT" "/me/player" JNull
        (JObj [("device_ids", JArr (map JStr device_ids));
               ("play", JBool play)])) /\
  (forall (state : bool) (device_id : string),
      issues (toggleShuffle axios (JBool state) (JStr device_id))
        "PUT" "/me/player/shuffle"
        (JObj [("state", JBool state); ("device_id", JStr device_id)])
        JNull) /\
  issues (getAvailableDevices axios) "GET" "/me/player/devices"
    JNull JNull /\
  (* User Profile *)
  (forall user_id : string,
      issues (getUserProfile axios (JStr user_id))
        "GET" ("/users/" ++ user_id) JNull JNull) /\
  issues (getCurrentUser axios) "GET" "/me" JNull JNull /\
  (* Follow *)
  (forall (type : string) (ids : list string),
      issues (getFollowingState axios (JStr type) (JArr (map JStr ids)))
        "GET" "/me/following/contains"
        (JObj [("type", JStr type);
               ("ids", JStr (String.concat "," ids))])
        JNull) /\
  (forall (playlist_id : string) (ids : list string),
      issues (checkIfUsersFollowPlaylist axios (JStr playlist_id)
                (JArr (map JStr ids)))
        "GET" ("/playlists/" ++ playlist_id ++ "/followers/contains")
        (JObj [("ids", JStr (String.concat "," ids))]) JNull) /\
  (forall (type : string) (ids : list string),
      issues (followUsersOrArtists axios (JStr type) (JArr (map JStr ids)))
        "PUT" "/me/following"
        (JObj [("type", JStr type);
               ("ids", JStr (String.concat "," ids))])
        (JObj [("ids", JArr (map JStr ids))])) /\
  (forall (playlist_id : string) (visible : bool),
      issues (followPlaylist axios (JStr playlist_id) (JBool visible))
        "PUT" ("/playlists/" ++ playlist_id ++ "/followers") JNull
        (JObj [("visible", JBool visible)])) /\
  (forall (type : string) (limit : Z) (after : string),
      issues (getFollowedArtists axios (JStr type) (JNum limit)
                (JStr after))
        "GET" "/me/following"
        (JObj [("type", JStr type); ("limit", JNum limit);
               ("after", JStr after)])
        JNull) /\
  (forall (type : string) (ids : list string),
      issues (unfollowArtistsOrUsers axios (JStr type)
                (JArr (map JStr ids)))
        "DELETE" "/me/following"
        (JObj [("type", JStr type);
               ("ids", JStr (String.concat "," ids))])
        (JObj [("ids", JArr (map JStr ids))])) /\
  (forall playlist_id : string,
      issues (unfollowPlaylist axios (JStr playlist_id))
        "GET" ("/playlists/" ++ playlist_id ++ "/followers") JNull JNull) /\
  (* Search *)
  (forall (q : string) (escaped : JsValue) (type : list string)
          (market : string) (limit offset include_external : Z),
      qs_escape (JStr q) = Normal escaped ->
      issues (searchItem axios qs_escape (JStr q) (JArr (map JStr type))
                (JStr market) (JNum limit) (JNum offset)
                (JNum include_external))
        "GET" "/search"
        (JObj [("q", escaped); ("type", JStr (String.concat "," type));
               ("market", JStr market); ("limit", JNum limit);
               ("offset", JNum offset);
               ("include_external", JNum include_external)])
        JNull).
Proof.
  repeat match goal with |- _ /\ _ => split end; try show_issues.
  - intros seed_artists seed_genres seed_tracks limit market
      min_ max_ target_ Hmin Hmax Htarget w.
    eexists. split; [sent_request|].
    rewrite <- ?join_strings, <- ?filter_join_array.
    repeat split; try reflexivity.
    change (field (request_config ?t ?o) "params")
      with (Js.or (Js.get o "params") JNull).
    cbn [Js.get Js.lookup Js.or Js.Boolean String.eqb Ascii.eqb Bool.eqb].
    rewrite assign_bounds_exactly by (reflexivity || assumption).
    reflexivity.
  - intros q escaped type market limit offset include_external Hq w.
    eexists. split.
    + unfold requests_of, searchItem, bind, lift. rewrite Hq.
      unfold_method. rewrite performRequest_world. cbn [network].
      apply skipn_length_app.
    + rewrite <- ?join_strings, <- ?filter_join_array.
      repeat split; reflexivity.
Qed.

End Templates.

(** ** Parameter shaping *)

Section Shaping.

Variable axios : JsValue -> Completion JsValue.
Variable qs_escape : JsValue -> Completion JsValue.

Ltac unfold_method :=
  cbv beta iota zeta delta
    [getCategories getCategory getCategoryPlaylist
     getRecommendationGenres getNewReleases getFeaturedPlaylists getArtists
     getArtist getArtistsAlbums getArtistsTopTracks getRelatedArtists
     getCurrentPlaying setVolume getPlaybackInfo skipPrevious
     getRecentlyPlayed skipNext pausePlayback setRepeatMode startPlayback
     seekTo transferPlayback toggleShuffle getAvailableDevices
     getUserProfile getCurrentUser getFollowingState
     checkIfUsersFollowPlaylist followUsersOrArtists followPlaylist
     getFollowedArtists unfollowArtistsOrUsers unfollowPlaylist].

Ltac show_sends :=
  intros; intro w; eexists;
  split;
  [ unfold requests_of; unfold_method;
    rewrite performRequest_world; cbn [network]; apply skipn_length_app
  | reflexivity ].

(** What [getRecommendations] does, once its bounds are enumerated. *)
Lemma getRecommendations_run
    seed_artists seed_genres seed_tracks limit market min_ max_ target_
    mn mx tg w :
  Js.Object_entries (Js.default min_ (JObj [])) = Normal mn ->
  Js.Object_entries (Js.default max_ (JObj [])) = Normal mx ->
  Js.Object_entries (Js.default target_ (JObj [])) = Normal tg ->
  getRecommendations axios seed_artists seed_genres seed_tracks limit market
    min_ max_ target_ w
  = performRequest axios
      (JObj [ ("url", JStr "/recommendations");
              ("params",
               JObj (assign_entries "target_"
                       (assign_entries "max_"
                          (assign_entries "min_"
                             (recommendation_seeds seed_artists seed_genres
                                seed_tracks limit market) mn) mx) tg)) ]) w.
Proof.
  intros Hmn Hmx Htg. unfold getRecommendations, bind, lift.
  rewrite Hmn, Hmx, Htg. reflexivity.
Qed.

(** The request of [getRecommendations], when it sends one. *)
Lemma getRecommendations_request
    seed_artists seed_genres seed_tracks limit market min_ max_ target_
    w config :
  requests_of (getRecommendations axios seed_artists seed_genres seed_tracks
                 limit market min_ max_ target_) w = [config] ->
  exists mn mx tg,
    Js.Object_entries (Js.default min_ (JObj [])) = Normal mn /\
    Js.Object_entries (Js.default max_ (JObj [])) = Normal mx /\
    Js.Object_entries (Js.default target_ (JObj [])) = Normal tg /\
    field config "params"
    = JObj (assign_entries "target_"
              (assign_entries "max_"
                 (assign_entries "min_"
                    (recommendation_seeds seed_artists seed_genres
                       seed_tracks limit market) mn) mx) tg).
Proof.
  intros Hsent.
  destruct (Js.Object_entries (Js.default min_ (JObj []))) as [mn|e] eqn:Hmn;
  [destruct (Js.Object_entries (Js.default max_ (JObj []))) as [mx|e] eqn:Hmx;
   [destruct (Js.Object_entries (Js.default target_ (JObj [])))
      as [tg|e] eqn:Htg |] |].
  - exists mn, mx, tg. repeat split; auto.
    unfold requests_of in Hsent.
    rewrite (getRecommendations_run _ _ _ _ _ _ _ _ _ _ _ _ Hmn Hmx Htg)
      in Hsent.
    rewrite performRequest_world in Hsent. cbn [network] in Hsent.
    rewrite skipn_length_app in Hsent.
    injection Hsent as <-. reflexivity.
  - unfold requests_of, getRecommendations, bind, lift in Hsent.
    rewrite Hmn, Hmx, Htg in Hsent. simpl in Hsent.
    rewrite skipn_all in Hsent. discriminate.
  - unfold requests_of, getRecommendations, bind, lift in Hsent.
    rewrite Hmn, Hmx in Hsent. simpl in Hsent.
    rewrite skipn_all in Hsent. discriminate.
  - unfold requests_of, getRecommendations, bind, lift in Hsent.
    rewrite Hmn in Hsent. simpl in Hsent.
    rewrite skipn_all in Hsent. discriminate.
Qed.

(** The loops over the bounds leave the seed parameters, [limit] and
    [market] as they are. *)
Lemma getRecommendations_seed_param
    seed_artists seed_genres seed_tracks limit market min_ max_ target_
    key v :
  In key ["seed_artists"; "seed_genres"; "seed_tracks"; "limit"; "market"] ->
  Js.lookup (recommendation_seeds seed_artists seed_genres seed_tracks
               limit market) key = Some v ->
  query_when_sent
    (getRecommendations axios seed_artists seed_genres seed_tracks limit
       market min_ max_ target_) key v.
Proof.
  intros Hkey Hv w config Hsent.
  destruct (getRecommendations_request _ _ _ _ _ _ _ _ _ _ Hsent)
    as (mn & mx & tg & _ & _ & _ & Hparams).
  unfold query. rewrite Hparams. cbn [entry].
  rewrite !assign_entries_other; auto;
    intros k _ Heq; simpl in Hkey;
    repeat (destruct Hkey as [<- | Hkey]; [simpl in Heq; discriminate|]);
    destruct Hkey.
Qed.

(** The request of [searchItem], when it sends one. *)
Lemma searchItem_request q type market limit offset include_external
    w config :
  requests_of (searchItem axios qs_escape q type market limit offset
                 include_external) w = [config] ->
  exists escaped,
    qs_escape q = Normal escaped /\
    field config "params"
    = JObj [ ("q", escaped);
             ("type", filter_join
                        (Js.default type (JArr [JStr "track"; JStr "artist"])));
             ("market", market);
             ("limit", Js.default limit (JNum 20));
             ("offset", Js.default offset (JNum 0));
             ("include_external", include_external) ].
Proof.
  intros Hsent. unfold requests_of, searchItem, bind, lift in Hsent.
  destruct (qs_escape q) as [escaped|e].
  - exists escaped. split; [reflexivity|].
    rewrite performRequest_world in Hsent. cbn [network] in Hsent.
    rewrite skipn_length_app in Hsent.
    injection Hsent as <-. reflexivity.
  - simpl in Hsent. rewrite skipn_all in Hsent. discriminate.
Qed.

Lemma searchItem_param q type market limit offset include_external key v :
  key <> "q" ->
  Js.lookup
    [ ("type", filter_join
                 (Js.default type (JArr [JStr "track"; JStr "artist"])));
      ("market", market);
      ("limit", Js.default limit (JNum 20));
      ("offset", Js.default offset (JNum 0));
      ("include_external", include_external) ] key = Some v ->
  query_when_sent
    (searchItem axios qs_escape q type market limit offset include_external)
    key v.
Proof.
  intros Hkey Hv w config Hsent.
  destruct (searchItem_request _ _ _ _ _ _ _ _ Hsent)
    as (escaped & _ & Hparams).
  unfold query. rewrite Hparams. cbn [entry]. cbn [Js.lookup].
  destruct (String.eqb "q" key) eqn:E.
  - apply String.eqb_eq in E. congruence.
  - exact Hv.
Qed.

(** With no [null] bound, [getRecommendations] sends its request, and the
    seeds, [limit] and [market] are in it as they were built. *)
Lemma getRecommendations_sends
    seed_artists seed_genres seed_tracks limit market min_ max_ target_
    key v :
  min_ <> JNull -> max_ <> JNull -> target_ <> JNull ->
  In key ["seed_artists"; "seed_genres"; "seed_tracks"; "limit"; "market"] ->
  Js.lookup (recommendation_seeds seed_artists seed_genres seed_tracks
               limit market) key = Some v ->
  sends_query
    (getRecommendations axios seed_artists seed_genres seed_tracks limit
       market min_ max_ target_) key v.
Proof.
  intros Hmin Hmax Htg Hkey Hv w.
  destruct (entries_of_default min_) as [[? _] | [_ [mn Emin]]];
    [contradiction|].
  destruct (entries_of_default max_) as [[? _] | [_ [mx Emax]]];
    [contradiction|].
  destruct (entries_of_default target_) as [[? _] | [_ [tg Etg]]];
    [contradiction|].
  eexists. split.
  - unfold requests_of.
    rewrite (getRecommendations_run _ _ _ _ _ _ _ _ mn mx tg w
               Emin Emax Etg).
    apply performRequest_requests.
  - apply (getRecommendations_seed_param _ _ _ _ _ min_ max_ target_
             key v Hkey Hv w).
    unfold requests_of.
    rewrite (getRecommendations_run _ _ _ _ _ _ _ _ mn mx tg w
               Emin Emax Etg).
    apply performRequest_requests.
Qed.

(** When the escape returns, [searchItem] sends its request, and the
    parameters after [q] are in it as they were built. *)
Lemma searchItem_sends
    q escaped type market limit offset include_external key v :
  qs_escape q = Normal escaped ->
  key <> "q" ->
  Js.lookup
    [ ("type", filter_join
                 (Js.default type (JArr [JStr "track"; JStr "artist"])));
      ("market", market);
      ("limit", Js.default limit (JNum 20));
      ("offset", Js.default offset (JNum 0));
      ("include_external", include_external) ] key = Some v ->
  sends_query
    (searchItem axios qs_escape q type market limit offset include_external)
    key v.
Proof.
  intros Hq Hkey Hv w.
  assert (Hsent :
            requests_of
              (searchItem axios qs_escape q type market limit offset
                 include_external) w
            = [request_config (access_token (this w))
                 [ ("url", JStr "/search");
                   ("params",
                    JObj [ ("q", escaped);
                           ("type",
                            filter_join
                              (Js.default type
                                 (JArr [JStr "track"; JStr "artist"])));
                           ("market", market);
                           ("limit", Js.default limit (JNum 20));
                           ("offset", Js.default offset (JNum 0));
                           ("include_external", include_external) ]) ]]).
  { unfold requests_of, searchItem, bind, lift. rewrite Hq.
    rewrite performRequest_world. cbn [network]. apply skipn_length_app. }
  eexists. split; [exact Hsent|].
  exact (searchItem_param _ _ _ _ _ _ key v Hkey Hv w _ Hsent).
Qed.

(** The query parameters built with the pattern
    [[x].filter(Boolean).join(",")], method by method: each is sent, and
    is what the pattern makes of the argument. *)
Lemma joined_query_parameters :
  (forall sa sg st limit market min_ max_ target_,
      min_ <> JNull -> max_ <> JNull -> target_ <> JNull ->
      let m := getRecommendations axios sa sg st limit market
                 min_ max_ target_ in
      sends_query m "seed_artists" (filter_join (Js.default sa (JArr [])))
      /\ sends_query m "seed_genres" (filter_join (Js.default sg (JArr [])))
      /\ sends_query m "seed_tracks"
           (filter_join (Js.default st (JArr [])))) /\
  (forall ids,
      sends_query (getArtists axios ids) "ids"
        (filter_join (Js.default ids (JArr [])))) /\
  (forall id include_groups market limit offset,
      sends_query
        (getArtistsAlbums axios id include_groups market limit offset)
        "include_groups"
        (filter_join
           (Js.default include_groups
              (JArr [JStr "single"; JStr "appears_on"])))) /\
  (forall type ids,
      sends_query (getFollowingState axios type ids) "ids"
        (filter_join (Js.default ids (JArr [])))) /\
  (forall playlist_id ids,
      sends_query (checkIfUsersFollowPlaylist axios playlist_id ids) "ids"
        (filter_join (Js.default ids (JArr [])))) /\
  (forall type ids,
      sends_query (followUsersOrArtists axios type ids) "ids"
        (filter_join (Js.default ids (JArr [])))) /\
  (forall type ids,
      sends_query (unfollowArtistsOrUsers axios type ids) "ids"
        (filter_join (Js.default ids (JArr [])))) /\
  (forall q escaped type market limit offset include_external,
      qs_escape q = Normal escaped ->
      sends_query
        (searchItem axios qs_escape q type market limit offset
           include_external)
        "type"
        (filter_join
           (Js.default type (JArr [JStr "track"; JStr "artist"])))).
Proof.
  repeat match goal with |- _ /\ _ => split end; try show_sends.
  - intros. repeat split;
      apply getRecommendations_sends; simpl; auto.
  - intros. eapply searchItem_sends; [eassumption | discriminate | reflexivity].
Qed.

Lemma filter_join_scalar (x d : JsValue) :
  is_scalar x = true ->
  filter_join (Js.default x d)
  = JStr (if Js.Boolean x then Js.ToString x else "").
Proof.
  intros Hs.
  assert (Hd : Js.default x d = x)
    by (destruct x; try discriminate; reflexivity).
  rewrite Hd.
  destruct (Js.Boolean x) eqn:Hb.
  - now apply filter_join_truthy_scalar.
  - now apply filter_join_falsy.
Qed.

(** C3, amended: every array-valued parameter that an endpoint method
    sends in the query string is sent as the comma-joined string of its
    elements, in order and without brackets ([["a","b"]] as ["a,b"]); the
    array-valued parameters sent in the request body ([uris],
    [device_ids], and the [ids] of the follow and unfollow bodies) are
    sent as the arrays they are.  [getRecommendations] sends when none of
    its bounds is [null], [searchItem] when the escape of [q] returns. *)
Theorem query_arrays_are_comma_joined (elems : list JsValue) :
  (forall sg st limit market min_ max_ target_,
      min_ <> JNull -> max_ <> JNull -> target_ <> JNull ->
      sends_query
        (getRecommendations axios (JArr elems) sg st limit market
           min_ max_ target_)
        "seed_artists" (JStr (Js.join elems ","))) /\
  (forall sa st limit market min_ max_ target_,
      min_ <> JNull -> max_ <> JNull -> target_ <> JNull ->
      sends_query
        (getRecommendations axios sa (JArr elems) st limit market
           min_ max_ target_)
        "seed_genres" (JStr (Js.join elems ","))) /\
  (forall sa sg limit market min_ max_ target_,
      min_ <> JNull -> max_ <> JNull -> target_ <> JNull ->
      sends_query
        (getRecommendations axios sa sg (JArr elems) limit market
           min_ max_ target_)
        "seed_tracks" (JStr (Js.join elems ","))) /\
  sends_query (getArtists axios (JArr elems)) "ids"
    (JStr (Js.join elems ",")) /\
  (forall id market limit offset,
      sends_query (getArtistsAlbums axios id (JArr elems) market limit offset)
        "include_groups" (JStr (Js.join elems ","))) /\
  (forall type,
      sends_query (getFollowingState axios type (JArr elems)) "ids"
        (JStr (Js.join elems ","))) /\
  (forall playlist_id,
      sends_query (checkIfUsersFollowPlaylist axios playlist_id (JArr elems))
        "ids" (JStr (Js.join elems ","))) /\
  (forall type,
      sends_query (followUsersOrArtists axios type (JArr elems)) "ids"
        (JStr (Js.join elems ","))) /\
  (forall type,
      sends_query (unfollowArtistsOrUsers axios type (JArr elems)) "ids"
        (JStr (Js.join elems ","))) /\
  (forall q escaped market limit offset include_external,
      qs_escape q = Normal escaped ->
      sends_query
        (searchItem axios qs_escape q (JArr elems) market limit offset
           include_external)
        "type" (JStr (Js.join elems ","))) /\
  (forall device_id context_uri offset position_ms,
      sends_body
        (startPlayback axios device_id context_uri (JArr elems) offset
           position_ms)
        "uris" (JArr elems)) /\
  (forall play,
      sends_body (transferPlayback axios (JArr elems) play)
        "device_ids" (JArr elems)) /\
  (forall type,
      sends_body (followUsersOrArtists axios type (JArr elems))
        "ids" (JArr elems)) /\
  (forall type,
      sends_body (unfollowArtistsOrUsers axios type (JArr elems))
        "ids" (JArr elems)) /\
  (forall strings : list string,
      Js.join (map JStr strings) "," = String.concat "," strings) /\
  Js.join [JStr "a"; JStr "b"] "," = "a,b".
Proof.
  destruct joined_query_parameters as (Hrec & _ & _ & _ & _ & _ & _ & Hsearch).
  rewrite <- filter_join_array.
  repeat match goal with |- _ /\ _ => split end; try show_sends.
  - intros sg st limit market min_ max_ target_ Hmin Hmax Htg.
    now destruct (Hrec (JArr elems) sg st limit market min_ max_ target_
                    Hmin Hmax Htg) as (H & _ & _).
  - intros sa st limit market min_ max_ target_ Hmin Hmax Htg.
    now destruct (Hrec sa (JArr elems) st limit market min_ max_ target_
                    Hmin Hmax Htg) as (_ & H & _).
  - intros sa sg limit market min_ max_ target_ Hmin Hmax Htg.
    now destruct (Hrec sa sg (JArr elems) limit market min_ max_ target_
                    Hmin Hmax Htg) as (_ & _ & H).
  - intros q escaped market limit offset include_external Hq.
    exact (Hsearch q escaped (JArr elems) market limit offset
             include_external Hq).
  - intros. apply join_strings.
  - reflexivity.
Qed.

(** C8: a scalar passed where an array is expected goes through
    [[x].filter(Boolean).join(",")] on its own: the falsy scalars [0],
    [""] and [false] (and [NaN], the one other falsy scalar) are filtered
    out and the query value is the empty string, and a truthy scalar is
    sent as its own string form.  [getRecommendations] sends when none of
    its bounds is [null], [searchItem] when the escape of [q] returns. *)
Theorem falsy_scalar_is_dropped (x : JsValue) :
  is_scalar x = true ->
  printable x = true ->
  let sent := JStr (if Js.Boolean x then Js.ToString x else "") in
  filter_join x = sent /\
  (x = JNum 0 \/ x = JStr "" \/ x = JBool false -> sent = JStr "") /\
  (Js.Boolean x = false <->
   x = JNum 0 \/ x = JStr "" \/ x = JBool false \/ x = JNaN) /\
  (forall s, x = JStr s -> s <> "" -> sent = JStr s) /\
  (forall sg st limit market min_ max_ target_,
      min_ <> JNull -> max_ <> JNull -> target_ <> JNull ->
      sends_query
        (getRecommendations axios x sg st limit market min_ max_ target_)
        "seed_artists" sent) /\
  (forall sa st limit market min_ max_ target_,
      min_ <> JNull -> max_ <> JNull -> target_ <> JNull ->
      sends_query
        (getRecommendations axios sa x st limit market min_ max_ target_)
        "seed_genres" sent) /\
  (forall sa sg limit market min_ max_ target_,
      min_ <> JNull -> max_ <> JNull -> target_ <> JNull ->
      sends_query
        (getRecommendations axios sa sg x limit market min_ max_ target_)
        "seed_tracks" sent) /\
  sends_query (getArtists axios x) "ids" sent /\
  (forall id market limit offset,
      sends_query (getArtistsAlbums axios id x market limit offset)
        "include_groups" sent) /\
  (forall type, sends_query (getFollowingState axios type x) "ids" sent) /\
  (forall playlist_id,
      sends_query (checkIfUsersFollowPlaylist axios playlist_id x)
        "ids" sent) /\
  (forall type, sends_query (followUsersOrArtists axios type x) "ids" sent) /\
  (forall type,
      sends_query (unfollowArtistsOrUsers axios type x) "ids" sent) /\
  (forall q escaped market limit offset include_external,
      qs_escape q = Normal escaped ->
      sends_query
        (searchItem axios qs_escape q x market limit offset include_external)
        "type" sent).
Proof.
  intros Hs _ sent.
  destruct joined_query_parameters
    as (Hrec & Hartists & Halbums & Hstate & Hcheck & Hfollow & Hunfollow
        & Hsearch).
  assert (Hx : forall d, filter_join (Js.default x d) = sent)
    by (intros d; now apply filter_join_scalar).
  split; [| split; [| split; [| split]]].
  - destruct x; try discriminate; apply (Hx JNull).
  - unfold sent. intros [-> | [-> | ->]]; reflexivity.
  - destruct x as [| | b | n | s | | |]; try discriminate; simpl.
    + split.
      * intros ->. auto.
      * intros [H | [H | [H | H]]]; try discriminate. now injection H.
    + rewrite negb_false_iff, Z.eqb_eq. split.
      * intros ->. auto.
      * intros [H | [H | [H | H]]]; try discriminate. now injection H.
    + rewrite negb_false_iff, String.eqb_eq. split.
      * intros ->. auto.
      * intros [H | [H | [H | H]]]; try discriminate. now injection H.
    + split; auto.
  - intros s -> Hne. unfold sent. simpl.
    destruct (String.eqb s "") eqn:E; [|reflexivity].
    apply String.eqb_eq in E. contradiction.
  - repeat match goal with |- _ /\ _ => split end; intros.
    + rewrite <- (Hx (JArr [])).
      now destruct (Hrec x sg st limit market min_ max_ target_)
        as (H' & _ & _).
    + rewrite <- (Hx (JArr [])).
      now destruct (Hrec sa x st limit market min_ max_ target_)
        as (_ & H' & _).
    + rewrite <- (Hx (JArr [])).
      now destruct (Hrec sa sg x limit market min_ max_ target_)
        as (_ & _ & H').
    + rewrite <- (Hx (JArr [])). apply Hartists.
    + rewrite <- (Hx (JArr [JStr "single"; JStr "appears_on"])).
      apply Halbums.
    + rewrite <- (Hx (JArr [])). apply Hstate.
    + rewrite <- (Hx (JArr [])). apply Hcheck.
    + rewrite <- (Hx (JArr [])). apply Hfollow.
    + rewrite <- (Hx (JArr [])). apply Hunfollow.
    + rewrite <- (Hx (JArr [JStr "track"; JStr "artist"])).
      eapply Hsearch. eassumption.
Qed.

(** C4: with bounds objects [min_], [max_] and [target_], the request of
    [getRecommendations] has, for every member [k: v] of [min_], the
    query parameter [min_k] with value [v], and likewise [max_k] and
    [target_k] for the members of [max_] and [target_]. *)
Theorem recommendation_bounds_are_flattened
    (seed_artists seed_genres seed_tracks limit market : JsValue)
    (min_ max_ target_ : list (string * JsValue)) :
  NoDup (map fst min_) ->
  NoDup (map fst max_) ->
  NoDup (map fst target_) ->
  forall w, exists config,
    requests_of
      (getRecommendations axios seed_artists seed_genres seed_tracks limit
         market (JObj min_) (JObj max_) (JObj target_)) w = [config] /\
    (forall k v, In (k, v) min_ -> query config ("min_" ++ k) = Some v) /\
    (forall k v, In (k, v) max_ -> query config ("max_" ++ k) = Some v) /\
    (forall k v,
        In (k, v) target_ -> query config ("target_" ++ k) = Some v).
Proof.
  intros Hmin Hmax Htarget w. eexists. split.
  - unfold requests_of.
    rewrite (getRecommendations_run _ _ _ _ _ (JObj min_) (JObj max_)
               (JObj target_) min_ max_ target_ w eq_refl eq_refl eq_refl).
    rewrite performRequest_world. cbn [network]. apply skipn_length_app.
  - unfold query.
    change (field (request_config ?t ?o) "params")
      with (Js.or (Js.get o "params") JNull).
    cbn [entry Js.get Js.lookup Js.or Js.Boolean String.eqb Ascii.eqb
         Bool.eqb].
    repeat split; intros k v Hin.
    + rewrite !assign_entries_other
        by (intros k' _ Heq; simpl in Heq; discriminate).
      now apply assign_entries_In.
    + rewrite assign_entries_other
        by (intros k' _ Heq; simpl in Heq; discriminate).
      now apply assign_entries_In.
    + now apply assign_entries_In.
Qed.

(** C5: an optional parameter left out is sent with the default of the
    method's signature: [limit] as 20 and [offset] as 0 wherever a method
    has them, and the other defaults likewise (an array default in its
    joined form).  [getRecommendations] sends when none of its bounds is
    [null], [searchItem] when the escape of [q] returns. *)
Theorem omitted_parameters_take_defaults :
  (* limit and offset *)
  (forall country locale offset,
      sends_query (getCategories axios country locale JUndefined offset)
        "limit" (JNum 20)) /\
  (forall country locale limit,
      sends_query (getCategories axios country locale limit JUndefined)
        "offset" (JNum 0)) /\
  (forall category_id country offset,
      sends_query
        (getCategoryPlaylist axios category_id country JUndefined offset)
        "limit" (JNum 20)) /\
  (forall category_id country limit,
      sends_query
        (getCategoryPlaylist axios category_id country limit JUndefined)
        "offset" (JNum 0)) /\
  (forall country offset,
      sends_query (getNewReleases axios country JUndefined offset)
        "limit" (JNum 20)) /\
  (forall country limit,
      sends_query (getNewReleases axios country limit JUndefined)
        "offset" (JNum 0)) /\
  (forall country locale timestamp offset,
      sends_query
        (getFeaturedPlaylists axios country locale timestamp JUndefined
           offset)
        "limit" (JNum 20)) /\
  (forall country locale timestamp limit,
      sends_query
        (getFeaturedPlaylists axios country locale timestamp limit
           JUndefined)
        "offset" (JNum 0)) /\
  (forall sa sg st market min_ max_ target_,
      min_ <> JNull -> max_ <> JNull -> target_ <> JNull ->
      sends_query
        (getRecommendations axios sa sg st JUndefined market
           min_ max_ target_)
        "limit" (JNum 20)) /\
  (forall id include_groups market offset,
      sends_query
        (getArtistsAlbums axios id include_groups market JUndefined offset)
        "limit" (JNum 20)) /\
  (forall id include_groups market limit,
      sends_query
        (getArtistsAlbums axios id include_groups market limit JUndefined)
        "offset" (JNum 0)) /\
  (forall after before,
      sends_query (getRecentlyPlayed axios JUndefined after before)
        "limit" (JNum 20)) /\
  (forall type after,
      sends_query (getFollowedArtists axios type JUndefined after)
        "limit" (JNum 20)) /\
  (forall q escaped type market offset include_external,
      qs_escape q = Normal escaped ->
      sends_query
        (searchItem axios qs_escape q type market JUndefined offset
           include_external)
        "limit" (JNum 20)) /\
  (forall q escaped type market limit include_external,
      qs_escape q = Normal escaped ->
      sends_query
        (searchItem axios qs_escape q type market limit JUndefined
           include_external)
        "offset" (JNum 0)) /\
  (* the other defaults *)
  (forall sg st limit market min_ max_ target_,
      min_ <> JNull -> max_ <> JNull -> target_ <> JNull ->
      sends_query
        (getRecommendations axios JUndefined sg st limit market
           min_ max_ target_)
        "seed_artists" (JStr "")) /\
  (forall sa st limit market min_ max_ target_,
      min_ <> JNull -> max_ <> JNull -> target_ <> JNull ->
      sends_query
        (getRecommendations axios sa JUndefined st limit market
           min_ max_ target_)
        "seed_genres" (JStr "")) /\
  (forall sa sg limit market min_ max_ target_,
      min_ <> JNull -> max_ <> JNull -> target_ <> JNull ->
      sends_query
        (getRecommendations axios sa sg JUndefined limit market
           min_ max_ target_)
        "seed_tracks" (JStr "")) /\
  (forall sa sg st limit market,
      issues
        (getRecommendations axios sa sg st limit market
           JUndefined JUndefined JUndefined)
        "GET" "/recommendations"
        (JObj (recommendation_seeds sa sg st limit market)) JNull) /\
  sends_query (getArtists axios JUndefined) "ids" (JStr "") /\
  (forall id market limit offset,
      sends_query (getArtistsAlbums axios id JUndefined market limit offset)
        "include_groups" (JStr "single,appears_on")) /\
  (forall device_id,
      sends_query (setVolume axios JUndefined device_id)
        "volume_percent" (JNum 50)) /\
  (forall device_id,
      sends_query (setRepeatMode axios JUndefined device_id)
        "state" (JStr "track")) /\
  (forall device_id context_uri offset position_ms,
      sends_body
        (startPlayback axios device_id context_uri JUndefined offset
           position_ms)
        "uris" (JArr [])) /\
  (forall device_id,
      sends_query (seekTo axios JUndefined device_id)
        "position_ms" (JNum 0)) /\
  (forall type,
      sends_query (getFollowingState axios type JUndefined)
        "ids" (JStr "")) /\
  (forall playlist_id,
      sends_query (checkIfUsersFollowPlaylist axios playlist_id JUndefined)
        "ids" (JStr "")) /\
  (forall type,
      sends_query (followUsersOrArtists axios type JUndefined)
        "ids" (JStr "") /\
      sends_body (followUsersOrArtists axios type JUndefined)
        "ids" (JArr [])) /\
  (forall playlist_id,
      sends_body (followPlaylist axios playlist_id JUndefined)
        "visible" (JBool true)) /\
  (forall limit after,
      sends_query (getFollowedArtists axios JUndefined limit after)
        "type" (JStr "artist")) /\
  (forall type,
      sends_query (unfollowArtistsOrUsers axios type JUndefined)
        "ids" (JStr "") /\
      sends_body (unfollowArtistsOrUsers axios type JUndefined)
        "ids" (JArr [])) /\
  (forall q escaped market limit offset include_external,
      qs_escape q = Normal escaped ->
      sends_query
        (searchItem axios qs_escape q JUndefined market limit offset
           include_external)
        "type" (JStr "track,artist")).
Proof.
  repeat match goal with |- _ /\ _ => split end;
    try show_sends;
    try (intros; apply getRecommendations_sends;
         [assumption | assumption | assumption | simpl; tauto | reflexivity]);
    try (intros; eapply searchItem_sends;
         [eassumption | discriminate | reflexivity]);
    try (intros; split; show_sends).
  intros sa sg st limit market w. eexists. split.
  - unfold requests_of.
    rewrite (getRecommendations_run sa sg st limit market
               JUndefined JUndefined JUndefined [] [] [] w
               eq_refl eq_refl eq_refl).
    rewrite performRequest_world. cbn [network]. apply skipn_length_app.
  - repeat split; reflexivity.
Qed.

End Shaping.

(** * Worked examples *)

(** [getArtist("abc")] against a transport that answers 404 with the
    envelope [{error: {status: 404, message: "not found"}}]: the call
    throws that [error] object. *)
Lemma error_envelope_is_thrown_witness :
  requests_of (invoke axios_404 qs_plain (GetArtist (JStr "abc"))) client0
  = [request_config (JStr "token") [("url", JStr "/artists/abc")]] /\
  fst (invoke axios_404 qs_plain (GetArtist (JStr "abc")) client0)
  = Abrupt (Thrown error_404).
Proof.
  split; [reflexivity|].
  eapply (proj2 (error_envelope_is_thrown axios_404 qs_plain
                   (GetArtist (JStr "abc")) client0 _ eq_refl)
            failure_404);
    reflexivity.
Defined.

(** The same call against a transport that answers 200 returns the
    response. *)
Example response_is_returned :
  fst (invoke axios_200 qs_plain (GetArtist (JStr "abc")) client0)
  = Normal response_200.
Proof. reflexivity. Qed.

(** [getArtist("abc")] when the server cannot be reached: the caller gets a
    [TypeError], not the transport's failure. *)
Lemma missing_response_raises_TypeError_witness :
  requests_of (invoke axios_down qs_plain (GetArtist (JStr "abc"))) client0
  = [request_config (JStr "token") [("url", JStr "/artists/abc")]] /\
  fst (invoke axios_down qs_plain (GetArtist (JStr "abc")) client0)
  = Abrupt TypeError /\
  fst (invoke axios_down qs_plain (GetArtist (JStr "abc")) client0)
  <> Abrupt (Thrown network_failure).
Proof.
  split; [reflexivity|].
  apply (missing_response_raises_TypeError axios_down qs_plain
           (GetArtist (JStr "abc")) client0
           (request_config (JStr "token") [("url", JStr "/artists/abc")])
           network_failure);
    reflexivity.
Defined.

(** A 502 answered with an HTML page: the caller gets [undefined]. *)
Example gateway_failure_throws_undefined :
  fst (invoke axios_502 qs_plain (GetArtist (JStr "abc")) client0)
  = Abrupt (Thrown JUndefined).
Proof. reflexivity. Qed.

(** [getArtist("abc")], whose options name no verb, and
    [setVolume(70, "dev1")], whose options name [PUT], on a client built
    with the token ["token"]. *)
Lemma wire_contract_witness :
  let artist :=
    request_config (JStr "token") [ ("url", JStr "/artists/abc") ] in
  let volume :=
    request_config (JStr "token")
      [ ("url", JStr "/me/player/volume"); ("method", JStr "PUT");
        ("params", JObj [ ("volume_percent", JNum 70);
                          ("device_id", JStr "dev1") ]) ] in
  requests_of (invoke axios_200 qs_plain (GetArtist (JStr "abc"))) client0
  = [artist] /\
  field artist "baseURL" = JStr "https://api.spotify.com/v1" /\
  field artist "headers" = JObj [("Authorization", JStr "Bearer token")] /\
  field artist "method" = JStr "GET" /\
  requests_of (invoke axios_200 qs_plain (SetVolume (JNum 70) (JStr "dev1")))
    client0 = [volume] /\
  field volume "method" = JStr "PUT".
Proof.
  intros artist volume.
  assert (Hartist : requests_of
                      (invoke axios_200 qs_plain (GetArtist (JStr "abc")))
                      client0 = [artist]) by reflexivity.
  assert (Hvolume : requests_of
                      (invoke axios_200 qs_plain
                         (SetVolume (JNum 70) (JStr "dev1"))) client0
                    = [volume]) by reflexivity.
  destruct (wire_contract axios_200 qs_plain _ _ _ Hartist)
    as (Hbase & Hauth & Hget & _).
  destruct (wire_contract axios_200 qs_plain _ _ _ Hvolume)
    as (_ & _ & Hput & _).
  repeat split; assumption.
Defined.

(** A client built without a token sends [Bearer null], after the
    constructor has logged its notice. *)
Example missing_token :
  console (new_SpotifyWebApi JUndefined) = ["Please provide a access token!"] /\
  access_token (this (new_SpotifyWebApi JUndefined)) = JNull /\
  exists config,
    requests_of (getCurrentUser axios_200) (new_SpotifyWebApi JUndefined)
    = [config] /\
    field config "headers" = JObj [("Authorization", JStr "Bearer null")].
Proof.
  split; [reflexivity|]. split; [reflexivity|].
  eexists. split; reflexivity.
Qed.

(** [getRecommendations(["a"], [], [], 10, "SE", {popularity: 10})] and
    [searchItem("abba", ["track"], "SE", 5, 0, 1)] with an escape that has
    nothing to escape. *)
Lemma request_templates_witness :
  NoDup (map fst [("popularity", JNum 10)]) /\
  issues
    (getRecommendations axios_200 (JArr (map JStr ["a"])) (JArr (map JStr []))
       (JArr (map JStr [])) (JNum 10) (JStr "SE")
       (JObj [("popularity", JNum 10)]) (JObj []) (JObj []))
    "GET" "/recommendations"
    (JObj [ ("seed_artists", JStr "a"); ("seed_genres", JStr "");
            ("seed_tracks", JStr ""); ("limit", JNum 10);
            ("market", JStr "SE"); ("min_popularity", JNum 10) ])
    JNull /\
  qs_plain (JStr "abba") = Normal (JStr "abba") /\
  issues
    (searchItem axios_200 qs_plain (JStr "abba") (JArr (map JStr ["track"]))
       (JStr "SE") (JNum 5) (JNum 0) (JNum 1))
    "GET" "/search"
    (JObj [ ("q", JStr "abba"); ("type", JStr "track"); ("market", JStr "SE");
            ("limit", JNum 5); ("offset", JNum 0);
            ("include_external", JNum 1) ])
    JNull.
Proof.
  assert (H1 : NoDup (map fst [("popularity", JNum 10)])).
  { simpl. constructor; [simpl; tauto | constructor]. }
  assert (H0 : NoDup (map fst (@nil (string * JsValue)))) by constructor.
  pose proof (request_templates axios_200 qs_plain) as H.
  destruct H as (_ & _ & _ & _ & _ & Hrec & H).
  split; [exact H1|]. split.
  - exact (Hrec ["a"] [] [] 10%Z "SE" [("popularity", JNum 10)] [] []
             H1 H0 H0).
  - split; [reflexivity|].
    repeat match type of H with
           | _ /\ _ => destruct H as [_ H]
           end.
    apply (H "abba" (JStr "abba") ["track"] "SE" 5%Z 0%Z 1%Z). reflexivity.
Defined.

(** C3 as it is written fails on [uris]: [startPlayback] with
    [uris = ["a","b"]] sends no query value ["a,b"]; the array goes into
    the body as it is. *)
Lemma array_in_body_is_not_joined :
  ~ sends_query
      (startPlayback axios_200 (JStr "dev1") JUndefined
         (JArr [JStr "a"; JStr "b"]) JUndefined JUndefined)
      "uris" (JStr "a,b") /\
  exists config,
    requests_of
      (startPlayback axios_200 (JStr "dev1") JUndefined
         (JArr [JStr "a"; JStr "b"]) JUndefined JUndefined) client0
    = [config] /\
    field config "params" = JObj [("device_id", JStr "dev1")] /\
    (forall k, query config k <> Some (JStr "a,b")) /\
    body config "uris" = Some (JArr [JStr "a"; JStr "b"]).
Proof.
  split.
  - intros H. destruct (H client0) as (config & Hsent & Hquery).
    unfold requests_of in Hsent. unfold startPlayback in Hsent.
    rewrite performRequest_world in Hsent. cbn [network] in Hsent.
    rewrite skipn_length_app in Hsent.
    injection Hsent as Hconfig. rewrite <- Hconfig in Hquery.
    vm_compute in Hquery. discriminate.
  - eexists. split; [reflexivity|]. split; [reflexivity|]. split.
    + intros k. unfold query.
      change (field _ "params") with (JObj [("device_id", JStr "dev1")]).
      cbn [entry Js.lookup].
      destruct (String.eqb "device_id" k); discriminate.
    + reflexivity.
Qed.

(** [getArtists(["a","b"])] sends [ids=a,b],
    [getRecommendations(["a","b"])] sends [seed_artists=a,b], and
    [searchItem("abba", ["a","b"])] sends [type=a,b]. *)
Lemma query_arrays_are_comma_joined_witness :
  sends_query (getArtists axios_200 (JArr [JStr "a"; JStr "b"])) "ids"
    (JStr "a,b") /\
  (JUndefined <> JNull /\
   sends_query
     (getRecommendations axios_200 (JArr [JStr "a"; JStr "b"]) JUndefined
        JUndefined JUndefined JUndefined JUndefined JUndefined JUndefined)
     "seed_artists" (JStr "a,b")) /\
  (qs_plain (JStr "abba") = Normal (JStr "abba") /\
   sends_query
     (searchItem axios_200 qs_plain (JStr "abba") (JArr [JStr "a"; JStr "b"])
        JUndefined JUndefined JUndefined JUndefined)
     "type" (JStr "a,b")).
Proof.
  assert (Hnull : JUndefined <> JNull) by discriminate.
  destruct (query_arrays_are_comma_joined axios_200 qs_plain
              [JStr "a"; JStr "b"])
    as (Hseed & _ & _ & Hartists & _ & _ & _ & _ & _ & Hsearch & _).
  split; [exact Hartists|]. split.
  - split; [exact Hnull|].
    exact (Hseed JUndefined JUndefined JUndefined JUndefined
             JUndefined JUndefined JUndefined Hnull Hnull Hnull).
  - split; [reflexivity|].
    exact (Hsearch (JStr "abba") (JStr "abba") JUndefined JUndefined
             JUndefined JUndefined eq_refl).
Defined.

(** [getArtists(0)] and [getRecommendations(0)]: the [0] is filtered out
    and the parameter is empty. *)
Lemma falsy_scalar_is_dropped_witness :
  is_scalar (JNum 0) = true /\
  printable (JNum 0) = true /\
  filter_join (JNum 0) = JStr "" /\
  sends_query (getArtists axios_200 (JNum 0)) "ids" (JStr "") /\
  sends_query
    (getRecommendations axios_200 (JNum 0) JUndefined JUndefined JUndefined
       JUndefined JUndefined JUndefined JUndefined)
    "seed_artists" (JStr "").
Proof.
  assert (Hnull : JUndefined <> JNull) by discriminate.
  split; [reflexivity|]. split; [reflexivity|].
  destruct (falsy_scalar_is_dropped axios_200 qs_plain (JNum 0)
              eq_refl eq_refl)
    as (Hjoin & _ & _ & _ & Hseed & _ & _ & Hartists & _).
  split; [exact Hjoin|]. split; [exact Hartists|].
  exact (Hseed JUndefined JUndefined JUndefined JUndefined
           JUndefined JUndefined JUndefined Hnull Hnull Hnull).
Defined.

(** [searchItem("abba")] asks for [limit=20], [offset=0] and
    [type=track,artist]; [getRecommendations()] for [limit=20]. *)
Lemma omitted_parameters_take_defaults_witness :
  qs_plain (JStr "abba") = Normal (JStr "abba") /\
  sends_query
    (searchItem axios_200 qs_plain (JStr "abba") JUndefined JUndefined
       JUndefined JUndefined JUndefined) "limit" (JNum 20) /\
  sends_query
    (searchItem axios_200 qs_plain (JStr "abba") JUndefined JUndefined
       JUndefined JUndefined JUndefined) "offset" (JNum 0) /\
  sends_query
    (searchItem axios_200 qs_plain (JStr "abba") JUndefined JUndefined
       JUndefined JUndefined JUndefined) "type" (JStr "track,artist") /\
  sends_query
    (getRecommendations axios_200 JUndefined JUndefined JUndefined JUndefined
       JUndefined JUndefined JUndefined JUndefined) "limit" (JNum 20).
Proof.
  assert (Hnull : JUndefined <> JNull) by discriminate.
  pose proof (omitted_parameters_take_defaults axios_200 qs_plain) as H.
  destruct H as (_ & _ & _ & _ & _ & _ & _ & _ & Hrec & _ & _ & _ & _
                 & Hlimit & Hoffset & H).
  split; [reflexivity|]. split.
  { exact (Hlimit (JStr "abba") (JStr "abba") JUndefined JUndefined
             JUndefined JUndefined eq_refl). }
  split.
  { exact (Hoffset (JStr "abba") (JStr "abba") JUndefined JUndefined
             JUndefined JUndefined eq_refl). }
  split.
  { repeat match type of H with
           | _ /\ _ => destruct H as [_ H]
           end.
    exact (H (JStr "abba") (JStr "abba") JUndefined JUndefined JUndefined
             JUndefined eq_refl). }
  exact (Hrec JUndefined JUndefined JUndefined JUndefined JUndefined
           JUndefined JUndefined Hnull Hnull Hnull).
Defined.

(** [getRecommendations] with [min_ = {popularity: 10}] sends
    [min_popularity=10]. *)
Lemma recommendation_bounds_are_flattened_witness :
  NoDup (map fst [("popularity", JNum 10)]) /\
  exists config,
    requests_of
      (getRecommendations axios_200 (JArr [JStr "artist1"]) JUndefined
         JUndefined JUndefined JUndefined
         (JObj [("popularity", JNum 10)]) (JObj []) (JObj [])) client0
    = [config] /\
    query config "min_popularity" = Some (JNum 10).
Proof.
  assert (H1 : NoDup (map fst [("popularity", JNum 10)])).
  { simpl. constructor; [simpl; tauto | constructor]. }
  assert (H0 : NoDup (map fst (@nil (string * JsValue)))) by constructor.
  split; [exact H1|].
  destruct (recommendation_bounds_are_flattened axios_200
              (JArr [JStr "artist1"]) JUndefined JUndefined JUndefined
              JUndefined [("popularity", JNum 10)] [] [] H1 H0 H0 client0)
    as (config & Hsent & Hmin & _).
  exists config. split; [exact Hsent|].
  apply (Hmin "popularity" (JNum 10)). simpl. now left.
Defined.

(** * Further properties of the dispatcher and the endpoint methods *)

(** ** What a call does, independently of the world it runs in *)

(** Every endpoint method first settles, from its arguments and the escape
    alone, either an options object or an exception; it then hands the
    options to [performRequest], or rejects without touching anything. *)
Lemma invoke_uniform (qs_escape : JsValue -> Completion JsValue) (c : Call) :
  exists plan : Completion (list (string * JsValue)),
    forall (axios : JsValue -> Completion JsValue) (w : World),
      invoke axios qs_escape c w
      = match plan with
        | Normal options => performRequest axios (JObj options) w
        | Abrupt e => (Abrupt e, w)
        end.
Proof.
  destruct c; try (eexists (Normal _); intros; reflexivity).
  - destruct (Js.Object_entries (Js.default min_ (JObj [])))
      as [mn|e1] eqn:Hmn;
      [destruct (Js.Object_entries (Js.default max_ (JObj [])))
         as [mx|e2] eqn:Hmx;
       [destruct (Js.Object_entries (Js.default target_ (JObj [])))
          as [tg|e3] eqn:Htg |] |].
    + eexists (Normal _). intros. cbn [invoke].
      apply getRecommendations_run; eassumption.
    + exists (Abrupt e3). intros. simpl.
      unfold getRecommendations, bind, lift. now rewrite Hmn, Hmx, Htg.
    + exists (Abrupt e2). intros. simpl.
      unfold getRecommendations, bind, lift. now rewrite Hmn, Hmx.
    + exists (Abrupt e1). intros. simpl.
      unfold getRecommendations, bind, lift. now rewrite Hmn.
  - destruct (qs_escape q) as [escaped|e] eqn:Hq.
    + eexists (Normal _). intros. simpl.
      unfold searchItem, bind, lift. rewrite Hq. reflexivity.
    + exists (Abrupt e). intros. simpl.
      unfold searchItem, bind, lift. now rewrite Hq.
Qed.

Lemma requests_of_plan axios qs_escape c plan :
  (forall w,
      invoke axios qs_escape c w
      = match plan with
        | Normal options => performRequest axios (JObj options) w
        | Abrupt e => (Abrupt e, w)
        end) ->
  forall w,
    requests_of (invoke axios qs_escape c) w
    = match plan with
      | Normal options => [request_config (access_token (this w)) options]
      | Abrupt _ => []
      end.
Proof.
  intros Hrun w. destruct plan as [options|e].
  - unfold requests_of. rewrite Hrun.
    apply performRequest_requests.
  - eapply requests_of_nothing_sent. apply Hrun.
Qed.

Section Conduct.

Variable axios : JsValue -> Completion JsValue.
Variable qs_escape : JsValue -> Completion JsValue.

(** X1 (frame): a call never writes to the console, keeps every request
    sent before it in place, and adds at most one of its own, whether it
    returns or throws. *)
Theorem call_leaves_a_single_trace (c : Call) (w : World) :
  console (snd (invoke axios qs_escape c w)) = console w /\
  network (snd (invoke axios qs_escape c w))
  = (network w ++ requests_of (invoke axios qs_escape c) w)%list /\
  (List.length (requests_of (invoke axios qs_escape c) w) <= 1)%nat.
Proof.
  destruct (invoke_uniform qs_escape c) as [plan Hrun].
  rewrite (requests_of_plan axios qs_escape c plan (Hrun axios) w).
  rewrite Hrun. destruct plan as [options|e].
  - rewrite performRequest_world. simpl. auto.
  - simpl. rewrite app_nil_r. auto.
Qed.

(** X2: apart from [getRecommendations] and [searchItem], no endpoint
    method checks its arguments before sending: whatever printable values
    they are (missing, [null], of the wrong type), and for a printable
    token, exactly one request goes out.  (A value that is not printable,
    such as an object with a [toString] member of its own, makes the
    string conversion raise before anything is sent; the model does not
    follow that, hence the hypotheses.) *)
Theorem arguments_are_not_validated (c : Call) (w : World) :
  rejects_early c = false ->
  forallb printable (arguments c) = true ->
  printable (access_token (this w)) = true ->
  exists config, requests_of (invoke axios qs_escape c) w = [config].
Proof.
  intros Hc _ _.
  destruct c; try discriminate;
    eexists; apply performRequest_requests.
Qed.

(** X3: a call returns a value exactly when its request was sent and the
    transport resolved it, and the value is the transport's response: a
    rejection is never turned into a return value. *)
Theorem returns_only_what_the_transport_resolved
    (c : Call) (w : World) (r : JsValue) :
  fst (invoke axios qs_escape c w) = Normal r <->
  exists config,
    requests_of (invoke axios qs_escape c) w = [config] /\
    axios config = Normal r.
Proof.
  destruct (invoke_uniform qs_escape c) as [plan Hrun].
  rewrite (requests_of_plan axios qs_escape c plan (Hrun axios) w).
  rewrite Hrun. destruct plan as [options|e].
  - rewrite performRequest_run. cbv zeta.
    set (config := request_config (access_token (this w)) options).
    split.
    + intros Hret. exists config. split; [reflexivity|].
      destruct (axios config) as [r'|e]; [simpl in Hret; congruence|].
      destruct (Js.member_exn e "response") as [resp|]; [|discriminate].
      destruct (Js.member resp "data") as [d|]; [|discriminate].
      destruct (Js.member d "error"); discriminate.
    + intros (config' & Hsent & Hok).
      injection Hsent as <-. now rewrite Hok.
  - simpl. split; [discriminate|].
    intros (config & Hsent & _). discriminate.
Qed.

(** X4: the request of a call does not depend on the transport or on
    what was sent or logged before; two clients with the same token send
    the same request for the same call. *)
Theorem request_depends_on_call_and_token
    (axios' : JsValue -> Completion JsValue) (c : Call) (w w' : World) :
  access_token (this w) = access_token (this w') ->
  requests_of (invoke axios qs_escape c) w
  = requests_of (invoke axios' qs_escape c) w'.
Proof.
  intros Htoken.
  destruct (invoke_uniform qs_escape c) as [plan Hrun].
  rewrite (requests_of_plan axios qs_escape c plan (Hrun axios) w).
  rewrite (requests_of_plan axios' qs_escape c plan (Hrun axios') w').
  now rewrite Htoken.
Qed.

(** X5: the token reaches a request only through its [headers]: for one
    call, two clients with any two tokens send requests that agree on
    every other member. *)
Theorem token_only_in_headers
    (c : Call) (w w' : World) (config config' : JsValue) (k : string) :
  requests_of (invoke axios qs_escape c) w = [config] ->
  requests_of (invoke axios qs_escape c) w' = [config'] ->
  k <> "headers" ->
  field config k = field config' k.
Proof.
  intros Hsent Hsent' Hk.
  destruct (invoke_uniform qs_escape c) as [plan Hrun].
  rewrite (requests_of_plan axios qs_escape c plan (Hrun axios))
    in Hsent, Hsent'.
  destruct plan as [options|e]; [|discriminate].
  injection Hsent as <-. injection Hsent' as <-.
  unfold field, request_config, Js.get. cbn [Js.lookup].
  destruct (String.eqb "baseURL" k); [reflexivity|].
  destruct (String.eqb "headers" k) eqn:E; [|reflexivity].
  apply String.eqb_eq in E. congruence.
Qed.

(** X6: calls do not influence one another: whatever a first call did,
    the request of a second one is the request it sends on its own. *)
Theorem calls_are_independent (c1 c2 : Call) (w : World) :
  requests_of (invoke axios qs_escape c2) (snd (invoke axios qs_escape c1 w))
  = requests_of (invoke axios qs_escape c2) w.
Proof.
  destruct (invoke_uniform qs_escape c2) as [plan2 Hrun2].
  rewrite !(requests_of_plan axios qs_escape c2 plan2 (Hrun2 axios)).
  destruct (invoke_uniform qs_escape c1) as [plan1 Hrun1].
  rewrite Hrun1. destruct plan1 as [options|e].
  - now rewrite performRequest_world.
  - reflexivity.
Qed.

(** X7: a client built from any token sends
    [Authorization: Bearer <token>] when the token is truthy and
    [Authorization: Bearer null] otherwise; a missing token stops no
    request. *)
Theorem authorization_of_a_new_client
    (token : JsValue) (c : Call) (config : JsValue) :
  requests_of (invoke axios qs_escape c) (new_SpotifyWebApi token) = [config] ->
  field config "headers"
  = JObj [("Authorization",
           JStr ("Bearer " ++ (if Js.Boolean token
                               then Js.ToString token else "null")))].
Proof.
  intros Hsent.
  destruct (invoke_request _ _ _ _ _ Hsent) as (options & path & _ & -> & _).
  unfold new_SpotifyWebApi, constructor, Js.or. simpl.
  destruct (Js.Boolean token); reflexivity.
Qed.

End Conduct.

(** ** Edge behaviour of the constructor, the dispatcher and the methods *)

Lemma performRequest_on_primitive axios (options : JsValue) (w : World) :
  options <> JUndefined -> options <> JNull ->
  (forall props, options <> JObj props) ->
  performRequest axios options w = performRequest axios (JObj []) w.
Proof.
  intros Hu Hn Ho.
  destruct options; try reflexivity; try contradiction.
  now destruct (Ho props).
Qed.

Section Edges.

Variable axios : JsValue -> Completion JsValue.
Variable qs_escape : JsValue -> Completion JsValue.

Ltac unfold_method :=
  cbv beta iota zeta delta
    [getCategories getCategory getCategoryPlaylist
     getRecommendationGenres getNewReleases getFeaturedPlaylists getArtists
     getArtist getArtistsAlbums getArtistsTopTracks getRelatedArtists
     getCurrentPlaying setVolume getPlaybackInfo skipPrevious
     getRecentlyPlayed skipNext pausePlayback setRepeatMode startPlayback
     seekTo transferPlayback toggleShuffle getAvailableDevices
     getUserProfile getCurrentUser getFollowingState
     checkIfUsersFollowPlaylist followUsersOrArtists followPlaylist
     getFollowedArtists unfollowArtistsOrUsers unfollowPlaylist].

Ltac show_sends :=
  intros; intro w; eexists;
  split;
  [ unfold requests_of; unfold_method;
    rewrite performRequest_world; cbn [network]; apply skipn_length_app
  | reflexivity ].

(** X8: the constructor stores the token it is given when that is truthy
    and [null] otherwise, so the stored token is never [undefined], [0],
    [false] or the empty string; it logs its notice exactly when the
    argument is falsy, and the new client has sent nothing. *)
Theorem constructor_normalises_the_token (token : JsValue) :
  (Js.Boolean token = true ->
   access_token (fst (constructor token)) = token /\
   snd (constructor token) = []) /\
  (Js.Boolean token = false ->
   access_token (fst (constructor token)) = JNull /\
   snd (constructor token) = ["Please provide a access token!"]) /\
  (access_token (fst (constructor token)) = JNull \/
   Js.Boolean (access_token (fst (constructor token))) = true) /\
  this (new_SpotifyWebApi token) = fst (constructor token) /\
  console (new_SpotifyWebApi token) = snd (constructor token) /\
  network (new_SpotifyWebApi token) = [].
Proof.
  unfold new_SpotifyWebApi, constructor, Js.or. simpl.
  destruct (Js.Boolean token) eqn:Hb; simpl; rewrite ?Hb;
    repeat split; try discriminate; auto.
Qed.

(** X9: [getRecommendations] rejects with a [TypeError], before anything
    is sent, exactly when one of its bounds is [null]; any other bounds
    (objects, omitted, or values of another type) let one request out. *)
Theorem null_bound_rejects_getRecommendations
    (seed_artists seed_genres seed_tracks limit market min_ max_ target_
     : JsValue) (w : World) :
  (min_ = JNull \/ max_ = JNull \/ target_ = JNull ->
   getRecommendations axios seed_artists seed_genres seed_tracks limit market
     min_ max_ target_ w = (Abrupt TypeError, w)) /\
  (min_ <> JNull -> max_ <> JNull -> target_ <> JNull ->
   exists config,
     requests_of
       (getRecommendations axios seed_artists seed_genres seed_tracks limit
          market min_ max_ target_) w = [config]).
Proof.
  split.
  - intros Hnull. unfold getRecommendations, bind, lift.
    destruct (entries_of_default min_) as [[_ Emin] | [Hmin [mn Emin]]];
      rewrite Emin; [reflexivity|].
    destruct (entries_of_default max_) as [[_ Emax] | [Hmax [mx Emax]]];
      rewrite Emax; [reflexivity|].
    destruct (entries_of_default target_) as [[_ Etg] | [Htg [tg Etg]]];
      rewrite Etg; [reflexivity|].
    destruct Hnull as [? | [? | ?]]; contradiction.
  - intros Hmin Hmax Htg.
    destruct (entries_of_default min_) as [[? _] | [_ [mn Emin]]];
      [contradiction|].
    destruct (entries_of_default max_) as [[? _] | [_ [mx Emax]]];
      [contradiction|].
    destruct (entries_of_default target_) as [[? _] | [_ [tg Etg]]];
      [contradiction|].
    eexists. unfold requests_of.
    rewrite (getRecommendations_run axios _ _ _ _ _ _ _ _ mn mx tg w
               Emin Emax Etg).
    apply performRequest_requests.
Qed.

(** X10: [searchItem] escapes [q] before it builds its request: when the
    escape throws, the call rejects with that very exception, not passed
    through the dispatcher's [catch], and sends nothing; otherwise one
    request goes out whose [q] is the escaped value. *)
Theorem searchItem_escapes_first
    (q type market limit offset include_external : JsValue) (w : World) :
  match qs_escape q with
  | Abrupt e =>
      searchItem axios qs_escape q type market limit offset include_external w
      = (Abrupt e, w)
  | Normal escaped =>
      exists config,
        requests_of
          (searchItem axios qs_escape q type market limit offset
             include_external) w = [config] /\
        query config "q" = Some escaped
  end.
Proof.
  destruct (qs_escape q) as [escaped|e] eqn:Hq.
  - eexists. split.
    + unfold requests_of, searchItem, bind, lift. rewrite Hq.
      rewrite performRequest_world. cbn [network]. apply skipn_length_app.
    + reflexivity.
  - unfold searchItem, bind, lift. now rewrite Hq.
Qed.

(** X11: a default replaces [undefined] only: an optional parameter given
    as [null], [0], [false] or [""] is sent as given.
    [getRecommendations] sends when none of its bounds is [null],
    [searchItem] when the escape of [q] returns. *)
Theorem only_undefined_takes_the_default (x : JsValue) :
  x <> JUndefined ->
  (forall country locale offset,
      sends_query (getCategories axios country locale x offset) "limit" x) /\
  (forall country locale limit,
      sends_query (getCategories axios country locale limit x) "offset" x) /\
  (forall category_id country offset,
      sends_query (getCategoryPlaylist axios category_id country x offset)
        "limit" x) /\
  (forall category_id country limit,
      sends_query (getCategoryPlaylist axios category_id country limit x)
        "offset" x) /\
  (forall country offset,
      sends_query (getNewReleases axios country x offset) "limit" x) /\
  (forall country limit,
      sends_query (getNewReleases axios country limit x) "offset" x) /\
  (forall country locale timestamp offset,
      sends_query
        (getFeaturedPlaylists axios country locale timestamp x offset)
        "limit" x) /\
  (forall country locale timestamp limit,
      sends_query
        (getFeaturedPlaylists axios country locale timestamp limit x)
        "offset" x) /\
  (forall sa sg st market min_ max_ target_,
      min_ <> JNull -> max_ <> JNull -> target_ <> JNull ->
      sends_query
        (getRecommendations axios sa sg st x market min_ max_ target_)
        "limit" x) /\
  (forall id include_groups market offset,
      sends_query (getArtistsAlbums axios id include_groups market x offset)
        "limit" x) /\
  (forall id include_groups market limit,
      sends_query (getArtistsAlbums axios id include_groups market limit x)
        "offset" x) /\
  (forall device_id,
      sends_query (setVolume axios x device_id) "volume_percent" x) /\
  (forall after before,
      sends_query (getRecentlyPlayed axios x after before) "limit" x) /\
  (forall device_id,
      sends_query (setRepeatMode axios x device_id) "state" x) /\
  (forall device_id context_uri offset position_ms,
      sends_body
        (startPlayback axios device_id context_uri x offset position_ms)
        "uris" x) /\
  (forall device_id,
      sends_query (seekTo axios x device_id) "position_ms" x) /\
  (forall playlist_id,
      sends_body (followPlaylist axios playlist_id x) "visible" x) /\
  (forall limit after,
      sends_query (getFollowedArtists axios x limit after) "type" x) /\
  (forall type after,
      sends_query (getFollowedArtists axios type x after) "limit" x) /\
  (forall q escaped type market offset include_external,
      qs_escape q = Normal escaped ->
      sends_query
        (searchItem axios qs_escape q type market x offset include_external)
        "limit" x) /\
  (forall q escaped type market limit include_external,
      qs_escape q = Normal escaped ->
      sends_query
        (searchItem axios qs_escape q type market limit x include_external)
        "offset" x).
Proof.
  intros Hx.
  destruct x; try contradiction;
    (repeat match goal with |- _ /\ _ => split end;
     try show_sends;
     try (intros; apply getRecommendations_sends;
          [assumption | assumption | assumption | simpl; tauto
          | reflexivity]);
     try (intros; eapply searchItem_sends;
          [eassumption | discriminate | reflexivity])).
Qed.

(** X12: [performRequest] called directly: on [undefined] or [null]
    options it rejects with a [TypeError] and sends nothing; on any other
    value it sends one request, with the base URL, the [Authorization]
    header and [reponseType] of the class, which no member of the options
    can replace; a value that is not an object counts as an empty options
    object. *)
Theorem performRequest_on_any_options (options : JsValue) (w : World) :
  (options = JUndefined \/ options = JNull ->
   performRequest axios options w = (Abrupt TypeError, w)) /\
  (options <> JUndefined -> options <> JNull ->
   exists config,
     requests_of (performRequest axios options) w = [config] /\
     field config "baseURL" = JStr "https://api.spotify.com/v1" /\
     field config "headers"
     = JObj [("Authorization",
              JStr ("Bearer " ++ Js.ToString (access_token (this w))))] /\
     field config "reponseType" = JStr "json" /\
     (forall k, entry config k <> None <->
                In k ["baseURL"; "headers"; "reponseType"; "url"; "method";
                      "params"; "data"]) /\
     ((forall props, options <> JObj props) ->
      field config "url" = JUndefined /\
      field config "method" = JStr "GET" /\
      field config "params" = JNull /\
      field config "data" = JNull)).
Proof.
  split.
  - intros [-> | ->]; reflexivity.
  - intros Hu Hn.
    assert (Hobj : exists props,
               performRequest axios options w
               = performRequest axios (JObj props) w /\
               ((forall p, options <> JObj p) -> props = [])).
    { destruct options as [| | b | n | s | elems | props |];
        try contradiction;
        try (exists []; split; [reflexivity | auto]).
      exists props. split; [reflexivity|].
      intros H. now destruct (H props). }
    destruct Hobj as (props & Hrun & Hprim).
    exists (request_config (access_token (this w)) props).
    split; [| split; [| split; [| split; [| split]]]];
      try reflexivity.
    + unfold requests_of. rewrite Hrun. apply performRequest_requests.
    + intros k. unfold entry, request_config. cbn [Js.lookup]. split.
      * intros Hk.
        repeat match type of Hk with
               | context [String.eqb ?a k] =>
                   let E := fresh "E" in
                   destruct (String.eqb a k) eqn:E;
                   [apply String.eqb_eq in E; cbn [In]; tauto|]
               end.
        now destruct Hk.
      * intros Hin. cbn [In] in Hin.
        repeat (destruct Hin as [<- | Hin]; [vm_compute; discriminate|]).
        destruct Hin.
    + intros H. rewrite (Hprim H). repeat split.
Qed.

(** X13: passing a scalar on its own instead of in a one-element array
    makes a difference exactly for [0], [false] and [NaN]: wrapped, every
    scalar is sent as its string form; alone, those three are sent as the
    empty string. *)
Theorem wrapping_protects_falsy_scalars (x : JsValue) :
  is_scalar x = true ->
  printable x = true ->
  filter_join (JArr [x]) = JStr (Js.ToString x) /\
  sends_query (getArtists axios (JArr [x])) "ids" (JStr (Js.ToString x)) /\
  (filter_join x = filter_join (JArr [x]) <->
   x <> JNum 0 /\ x <> JBool false /\ x <> JNaN).
Proof.
  intros Hs _.
  assert (Hwrapped : filter_join (JArr [x]) = JStr (Js.ToString x))
    by (destruct x; try discriminate; reflexivity).
  split; [exact Hwrapped|]. split.
  - rewrite <- Hwrapped. show_sends.
  - rewrite Hwrapped.
    destruct (Js.Boolean x) eqn:Hb.
    + rewrite (filter_join_truthy_scalar x Hs Hb). split; [|reflexivity].
      intros _. repeat split; intros ->; discriminate.
    + rewrite (filter_join_falsy x Hb).
      destruct x as [| | b | n | s | | |]; try discriminate; simpl in Hb.
      * destruct b; [discriminate|]. split; [discriminate|].
        intros (_ & H & _). now destruct H.
      * apply negb_false_iff, Z.eqb_eq in Hb. subst n.
        split; [discriminate|]. intros (H & _). now destruct H.
      * apply negb_false_iff, String.eqb_eq in Hb. subst s.
        split; [|reflexivity]. intros _. repeat split; discriminate.
      * split; [discriminate|]. intros (_ & _ & H). now destruct H.
Qed.

(** X14: the query parameters of [getRecommendations] are the three seeds,
    [limit] and [market], followed by the members of [min_], of [max_]
    and of [target_] under their prefixed names, in that order, and
    nothing else. *)
Theorem recommendation_parameters_are_exactly
    (seed_artists seed_genres seed_tracks limit market min_ max_ target_
     : JsValue) (mn mx tg : list (string * JsValue)) (w : World) :
  Js.Object_entries (Js.default min_ (JObj [])) = Normal mn ->
  Js.Object_entries (Js.default max_ (JObj [])) = Normal mx ->
  Js.Object_entries (Js.default target_ (JObj [])) = Normal tg ->
  NoDup (map fst mn) -> NoDup (map fst mx) -> NoDup (map fst tg) ->
  exists config,
    requests_of
      (getRecommendations axios seed_artists seed_genres seed_tracks limit
         market min_ max_ target_) w = [config] /\
    field config "params"
    = JObj (recommendation_seeds seed_artists seed_genres seed_tracks
              limit market
            ++ map (prefixed "min_") mn
            ++ map (prefixed "max_") mx
            ++ map (prefixed "target_") tg)%list.
Proof.
  intros Emin Emax Etg Hmn Hmx Htg.
  eexists. split.
  - unfold requests_of.
    rewrite (getRecommendations_run axios _ _ _ _ _ _ _ _ mn mx tg w
               Emin Emax Etg).
    apply performRequest_requests.
  - change (field (request_config ?t ?o) "params")
      with (Js.or (Js.get o "params") JNull).
    cbn [Js.get Js.lookup Js.or Js.Boolean String.eqb Ascii.eqb Bool.eqb].
    f_equal.
    rewrite (assign_entries_fresh "min_" mn); auto.
    + rewrite (assign_entries_fresh "max_" mx); auto.
      * rewrite (assign_entries_fresh "target_" tg); auto.
        -- now rewrite <- !app_assoc.
        -- intros k _. rewrite !map_app, !in_app_iff.
           intros [[Hin | Hin] | Hin].
           ++ revert Hin. apply seed_key_fresh. auto.
           ++ revert Hin. apply prefixed_key_fresh.
              intros a b; simpl; discriminate.
           ++ revert Hin. apply prefixed_key_fresh.
              intros a b; simpl; discriminate.
      * intros k _. rewrite map_app, in_app_iff.
        intros [Hin | Hin].
        -- revert Hin. apply seed_key_fresh. auto.
        -- revert Hin. apply prefixed_key_fresh.
           intros a b; simpl; discriminate.
    + intros k _. apply seed_key_fresh. auto.
Qed.

(** X15: an identifier is put into the path as it is, without escaping,
    so it can reach another endpoint: [getArtist(id + "/related-artists")]
    runs exactly as [getRelatedArtists(id)], and in the same way
    [getArtist] reaches the paths of [getArtistsTopTracks] and
    [getArtistsAlbums], and [getCategory] that of [getCategoryPlaylist]. *)
Theorem path_parameters_are_not_escaped (id : string) :
  (forall w,
      getArtist axios (JStr (id ++ "/related-artists")) w
      = getRelatedArtists axios (JStr id) w) /\
  (forall market w config config',
      requests_of (getArtist axios (JStr (id ++ "/top-tracks"))) w = [config] ->
      requests_of (getArtistsTopTracks axios (JStr id) market) w = [config'] ->
      field config "url" = field config' "url" /\
      field config "method" = field config' "method") /\
  (forall include_groups market limit offset w config config',
      requests_of (getArtist axios (JStr (id ++ "/albums"))) w = [config] ->
      requests_of
        (getArtistsAlbums axios (JStr id) include_groups market limit offset)
        w = [config'] ->
      field config "url" = field config' "url" /\
      field config "method" = field config' "method") /\
  (forall country locale limit offset w config config',
      requests_of
        (getCategory axios (JStr (id ++ "/playlists")) country locale) w
      = [config] ->
      requests_of
        (getCategoryPlaylist axios (JStr id) country limit offset) w
      = [config'] ->
      field config "url" = field config' "url" /\
      field config "method" = field config' "method").
Proof.
  split; [reflexivity|].
  repeat split; intros;
    repeat match goal with
           | H : requests_of _ _ = [_] |- _ =>
               unfold requests_of in H;
               cbv beta iota zeta delta
                 [getArtist getArtistsTopTracks getArtistsAlbums
                  getCategory getCategoryPlaylist] in H;
               rewrite performRequest_world in H; cbn [network] in H;
               rewrite skipn_length_app in H; injection H as <-
           end;
    reflexivity.
Qed.

End Edges.

(** ** Worked examples for the further properties *)

(** [getArtist()] without an argument still sends its request. *)
Lemma arguments_are_not_validated_witness :
  rejects_early (GetArtist JUndefined) = false /\
  forallb printable (arguments (GetArtist JUndefined)) = true /\
  printable (access_token (this client0)) = true /\
  requests_of (invoke axios_200 qs_plain (GetArtist JUndefined)) client0
  = [request_config (JStr "token") [("url", JStr "/artists/undefined")]].
Proof.
  split; [reflexivity|]. split; [reflexivity|]. split; [reflexivity|].
  destruct (arguments_are_not_validated axios_200 qs_plain
              (GetArtist JUndefined) client0 eq_refl eq_refl eq_refl)
    as [config Hsent].
  rewrite Hsent. vm_compute in Hsent. injection Hsent as <-. reflexivity.
Defined.

(** A call that fails with 404 does not return. *)
Lemma returns_only_what_the_transport_resolved_witness :
  fst (invoke axios_200 qs_plain (GetCurrentUser) client0)
  = Normal response_200 /\
  fst (invoke axios_404 qs_plain (GetCurrentUser) client0)
  <> Normal response_200.
Proof.
  split.
  - apply (proj2 (returns_only_what_the_transport_resolved axios_200 qs_plain
                    GetCurrentUser client0 response_200)).
    eexists. split; reflexivity.
  - intros H.
    apply (proj1 (returns_only_what_the_transport_resolved axios_404 qs_plain
                    GetCurrentUser client0 response_200)) in H.
    destruct H as (config & _ & H). discriminate.
Defined.

(** The same call on a fresh client with a working transport, and on a
    client that has already had a failure. *)
Lemma request_depends_on_call_and_token_witness :
  access_token (this client0)
  = access_token
      (this (snd (invoke axios_404 qs_plain (GetArtist (JStr "abc")) client0)))
  /\
  requests_of (invoke axios_200 qs_plain (SkipNext (JStr "dev1"))) client0
  = requests_of (invoke axios_404 qs_plain (SkipNext (JStr "dev1")))
      (snd (invoke axios_404 qs_plain (GetArtist (JStr "abc")) client0)).
Proof.
  split; [reflexivity|].
  apply (request_depends_on_call_and_token axios_200 qs_plain axios_404).
  reflexivity.
Defined.

(** Two clients with different tokens pause the same device. *)
Lemma token_only_in_headers_witness :
  "url" <> "headers" /\
  field (request_config (JStr "token")
           [ ("url", JStr "/me/player/pause"); ("method", JStr "PUT");
             ("params", JObj [("device_id", JStr "dev1")]) ]) "url"
  = field (request_config (JStr "other")
             [ ("url", JStr "/me/player/pause"); ("method", JStr "PUT");
               ("params", JObj [("device_id", JStr "dev1")]) ]) "url".
Proof.
  split; [discriminate|].
  apply (token_only_in_headers axios_200 qs_plain
           (PausePlayback (JStr "dev1"))
           client0 (new_SpotifyWebApi (JStr "other")));
    [reflexivity | reflexivity | discriminate].
Defined.

(** A client built without a token. *)
Lemma authorization_of_a_new_client_witness :
  requests_of (invoke axios_200 qs_plain GetCurrentUser)
    (new_SpotifyWebApi JUndefined)
  = [request_config JNull [("url", JStr "/me")]] /\
  field (request_config JNull [("url", JStr "/me")]) "headers"
  = JObj [("Authorization", JStr "Bearer null")].
Proof.
  split; [reflexivity|].
  apply (authorization_of_a_new_client axios_200 qs_plain JUndefined
           GetCurrentUser).
  reflexivity.
Defined.

(** [getRecommendations(["a"], [], [], 10, "SE", null)] sends nothing. *)
Lemma null_bound_rejects_getRecommendations_witness :
  getRecommendations axios_200 (JArr [JStr "a"]) (JArr []) (JArr [])
    (JNum 10) (JStr "SE") JNull JUndefined JUndefined client0
  = (Abrupt TypeError, client0).
Proof.
  apply (proj1 (null_bound_rejects_getRecommendations axios_200
                  (JArr [JStr "a"]) (JArr []) (JArr []) (JNum 10) (JStr "SE")
                  JNull JUndefined JUndefined client0)).
  now left.
Defined.

(** An escape that throws. *)
Example searchItem_with_malformed_query :
  searchItem axios_200 qs_malformed (JStr "abba") JUndefined JUndefined
    JUndefined JUndefined JUndefined client0
  = (Abrupt (Thrown (JStr "URIError: URI malformed")), client0).
Proof. reflexivity. Qed.

(** [getCategories("SE", "sv_SE", 0)], [getRecommendations([], [], [], 0)]
    and [searchItem("abba", undefined, undefined, 0)] ask for [limit=0]. *)
Lemma only_undefined_takes_the_default_witness :
  JNum 0 <> JUndefined /\
  sends_query
    (getCategories axios_200 (JStr "SE") (JStr "sv_SE") (JNum 0) JUndefined)
    "limit" (JNum 0) /\
  sends_query
    (getRecommendations axios_200 (JArr []) (JArr []) (JArr []) (JNum 0)
       JUndefined JUndefined JUndefined JUndefined)
    "limit" (JNum 0) /\
  sends_query
    (searchItem axios_200 qs_plain (JStr "abba") JUndefined JUndefined
       (JNum 0) JUndefined JUndefined)
    "limit" (JNum 0).
Proof.
  assert (H : JNum 0 <> JUndefined) by discriminate.
  assert (Hnull : JUndefined <> JNull) by discriminate.
  split; [exact H|].
  pose proof (only_undefined_takes_the_default axios_200 qs_plain
                (JNum 0) H) as Hall.
  destruct Hall as (Hcat & _ & _ & _ & _ & _ & _ & _ & Hrec & Hall).
  split; [apply Hcat|]. split.
  - exact (Hrec (JArr []) (JArr []) (JArr []) JUndefined JUndefined
             JUndefined JUndefined Hnull Hnull Hnull).
  - destruct Hall as (_ & _ & _ & _ & _ & _ & _ & _ & _ & _ & Hsearch & _).
    exact (Hsearch (JStr "abba") (JStr "abba") JUndefined JUndefined
             JUndefined JUndefined eq_refl).
Defined.

(** [getArtists([0])] asks for [ids=0], [getArtists(0)] for [ids=]. *)
Lemma wrapping_protects_falsy_scalars_witness :
  is_scalar (JNum 0) = true /\
  printable (JNum 0) = true /\
  filter_join (JArr [JNum 0]) = JStr "0" /\
  filter_join (JNum 0) <> filter_join (JArr [JNum 0]).
Proof.
  split; [reflexivity|]. split; [reflexivity|].
  destruct (wrapping_protects_falsy_scalars axios_200 (JNum 0)
              eq_refl eq_refl)
    as (Hwrapped & _ & Hiff).
  split; [exact Hwrapped|].
  intros Heq. apply Hiff in Heq. destruct Heq as [H _]. now apply H.
Defined.

(** [getRecommendations(["a"], undefined, undefined, 10, "SE",
    {popularity: 10}, {tempo: 120})]. *)
Lemma recommendation_parameters_are_exactly_witness :
  exists config,
    requests_of
      (getRecommendations axios_200 (JArr [JStr "a"]) JUndefined JUndefined
         (JNum 10) (JStr "SE") (JObj [("popularity", JNum 10)])
         (JObj [("tempo", JNum 120)]) JUndefined) client0 = [config] /\
    field config "params"
    = JObj [ ("seed_artists", JStr "a"); ("seed_genres", JStr "");
             ("seed_tracks", JStr ""); ("limit", JNum 10);
             ("market", JStr "SE"); ("min_popularity", JNum 10);
             ("max_tempo", JNum 120) ].
Proof.
  assert (H1 : forall kv : string * JsValue, NoDup (map fst [kv])).
  { intros kv. simpl. constructor; [simpl; tauto | constructor]. }
  assert (H0 : NoDup (map fst (@nil (string * JsValue)))) by constructor.
  exact (recommendation_parameters_are_exactly axios_200
           (JArr [JStr "a"]) JUndefined JUndefined (JNum 10) (JStr "SE")
           (JObj [("popularity", JNum 10)]) (JObj [("tempo", JNum 120)])
           JUndefined [("popularity", JNum 10)] [("tempo", JNum 120)] []
           client0 eq_refl eq_refl eq_refl (H1 _) (H1 _) H0).
Defined.
